(** * macOS application index: inventory and restore pipeline

    Shallow embedding of [main.py]: the collector ([get_installed_apps],
    [get_brew_packages], [get_brew_casks]), the report writer of
    [run_index_mode], the selection gate [select_items_with_tkinter] and the
    parser and install loops of [run_restore_mode].

    Python text is modelled by [string]; a character is a code point below
    256.  The operating system, the package manager and the human in front of
    the checklist are gathered in a record [Env] of oracles, and every
    observable effect of a run (a printed line, a spawned process, a dialog, a
    written file) is appended to a trace of [event]s. *)

From Stdlib Require Import String Ascii List Bool Arith Lia Sorted.
From Stdlib Require Import Permutation NArith.
Import ListNotations.

Local Open Scope string_scope.
Local Open Scope list_scope.

Notation "s +++ t" := (String.append s t) (at level 60, right associativity).

(** ** Python string primitives *)

Module PyStr.

Definition LF : ascii := ascii_of_nat 10.
Definition CR : ascii := ascii_of_nat 13.

(** One-character string holding a line feed: the Python literal "\n". *)
Definition nl : string := String LF EmptyString.

(** [str.isspace] on one code point below 256: TAB..CR, FS..US, SPACE,
    NEL (0x85) and NBSP (0xA0). *)
Definition isspace (c : ascii) : bool :=
  let n := nat_of_ascii c in
  (Nat.leb 9 n && Nat.leb n 13) || (Nat.leb 28 n && Nat.leb n 32)
  || Nat.eqb n 133 || Nat.eqb n 160.

Definition is_empty (s : string) : bool :=
  match s with EmptyString => true | String _ _ => false end.

(** [s.lstrip()] *)
Fixpoint lstrip (s : string) : string :=
  match s with
  | EmptyString => EmptyString
  | String c s' => if isspace c then lstrip s' else s
  end.

(** [s.rstrip()] *)
Fixpoint rstrip (s : string) : string :=
  match s with
  | EmptyString => EmptyString
  | String c s' =>
      let r := rstrip s' in
      if isspace c && is_empty r then EmptyString else String c r
  end.

(** [s.strip()] *)
Definition strip (s : string) : string := rstrip (lstrip s).

(** [s.startswith(p)] *)
Definition startswith (s p : string) : bool := String.prefix p s.

(** [s.endswith(p)] *)
Fixpoint endswith (s p : string) : bool :=
  String.eqb s p ||
  match s with
  | EmptyString => false
  | String _ s' => endswith s' p
  end.

(** [sub in s] *)
Fixpoint contains (sub s : string) : bool :=
  String.prefix sub s ||
  match s with
  | EmptyString => false
  | String _ s' => contains sub s'
  end.

(** [s.replace(old, new)] for a non-empty [old]: occurrences are found from
    the left and do not overlap.  [skip] counts the characters of the
    occurrence being consumed. *)
Fixpoint replace_from (old new s : string) (skip : nat) : string :=
  match s with
  | EmptyString => EmptyString
  | String c s' =>
      match skip with
      | S k => replace_from old new s' k
      | O =>
          if String.prefix old s
          then new +++ replace_from old new s' (String.length old - 1)
          else String c (replace_from old new s' 0)
      end
  end.

Definition replace (s old new : string) : string := replace_from old new s 0.

(** [s.split("\n")]: never empty, [""] for the empty string. *)
Fixpoint split_nl_from (cur s : string) : list string :=
  match s with
  | EmptyString => [cur]
  | String c s' =>
      if Ascii.eqb c LF then cur :: split_nl_from EmptyString s'
      else split_nl_from (cur +++ String c EmptyString) s'
  end.

Definition split_nl (s : string) : list string := split_nl_from EmptyString s.

(** Iteration over a text file opened for reading with the default
    [newline=None]: "\n", "\r\n" and "\r" all end a line and are handed over
    as "\n"; a last line without terminator is yielded as it is. *)
Fixpoint readlines_from (cur s : string) : list string :=
  match s with
  | EmptyString => if is_empty cur then [] else [cur]
  | String c s' =>
      if Ascii.eqb c LF then (cur +++ nl) :: readlines_from EmptyString s'
      else if Ascii.eqb c CR then
        match s' with
        | String c' s'' =>
            if Ascii.eqb c' LF then (cur +++ nl) :: readlines_from EmptyString s''
            else (cur +++ nl) :: readlines_from EmptyString s'
        | EmptyString => (cur +++ nl) :: readlines_from EmptyString s'
        end
      else readlines_from (cur +++ String c EmptyString) s'
  end.

Definition readlines (s : string) : list string := readlines_from EmptyString s.

(** [sorted(l)] on strings: code-point lexicographic order. *)
Fixpoint insert_sorted (x : string) (l : list string) : list string :=
  match l with
  | [] => [x]
  | y :: l' => if String.leb x y then x :: l else y :: insert_sorted x l'
  end.

Definition sorted (l : list string) : list string :=
  fold_right insert_sorted [] l.

(** [list(set(l))] up to the order, which [sorted] then fixes. *)
Definition set_list (l : list string) : list string := nodup string_dec l.

End PyStr.

Import PyStr.

(** ** Data model *)

(** The three lists that index mode collects and restore mode recovers. *)
Record InventoryReport : Type := mkReport {
  applications : list string;
  formulae : list string;
  casks : list string
}.

(** The values taken by [current_section] in [run_restore_mode], [None]
    apart. *)
Inductive section_tag : Type := SecApps | SecFormulae | SecCasks.

(** The local variables of the parsing loop of [run_restore_mode]. *)
Record ParseState : Type := mkParse {
  current_section : option section_tag;
  apps : list string;
  p_formulae : list string;
  p_casks : list string
}.

(** Python truth value of a list. *)
Definition truthy {A} (l : list A) : bool :=
  match l with [] => false | _ :: _ => true end.

(** ** Report writer (the [with open(filename, "w")] block of
       [run_index_mode]) *)

Definition APPS_HEADER : string := "### macOS Installed Applications ###".
Definition FORMULAE_HEADER : string := "### Homebrew Formulae ###".
Definition CASKS_HEADER : string := "### Homebrew Casks ###".

Definition APPS_SENTINEL : string :=
  "No applications found in /Applications or ~/Applications.".
Definition FORMULAE_SENTINEL : string :=
  "Homebrew not found or no formulae installed.".
Definition CASKS_SENTINEL : string :=
  "Homebrew not found or no casks installed.".

(** [for x in items: f.write(f"{x}\n")] *)
Fixpoint write_items (items : list string) : string :=
  match items with
  | [] => EmptyString
  | x :: rest => (x +++ nl) +++ write_items rest
  end.

(** The [if items: ... else: f.write(sentinel)] of one section. *)
Definition write_body (items : list string) (sentinel : string) : string :=
  if truthy items then write_items items else sentinel +++ nl.

Definition write_report (r : InventoryReport) : string :=
  (APPS_HEADER +++ nl) +++ write_body (applications r) APPS_SENTINEL
  +++ (nl +++ FORMULAE_HEADER +++ nl) +++ write_body (formulae r) FORMULAE_SENTINEL
  +++ (nl +++ CASKS_HEADER +++ nl) +++ write_body (casks r) CASKS_SENTINEL.

(** ** Report parser (the [for line in f] loop of [run_restore_mode]) *)

Definition set_section (st : ParseState) (t : section_tag) : ParseState :=
  mkParse (Some t) (apps st) (p_formulae st) (p_casks st).

Definition append_to (st : ParseState) (t : section_tag) (line : string)
  : ParseState :=
  match t with
  | SecApps =>
      mkParse (current_section st) (apps st ++ [line]) (p_formulae st) (p_casks st)
  | SecFormulae =>
      mkParse (current_section st) (apps st) (p_formulae st ++ [line]) (p_casks st)
  | SecCasks =>
      mkParse (current_section st) (apps st) (p_formulae st) (p_casks st ++ [line])
  end.

(** One iteration of the loop body on the raw line [raw]. *)
Definition parse_line (st : ParseState) (raw : string) : ParseState :=
  let line := strip raw in
  if is_empty line then st
  else if startswith line "###" then
    if contains "macOS Installed Applications" line then set_section st SecApps
    else if contains "Homebrew Formulae" line then set_section st SecFormulae
    else if contains "Homebrew Casks" line then set_section st SecCasks
    else st
  else
    match current_section st with
    | Some t =>
        if negb (startswith line "No ")
           && negb (startswith line "Homebrew not found")
        then append_to st t line
        else st
    | None => st
    end.

Definition parse_init : ParseState := mkParse None [] [] [].

Definition parse_lines (st : ParseState) (lines : list string) : ParseState :=
  fold_left parse_line lines st.

Definition report_of (st : ParseState) : InventoryReport :=
  mkReport (apps st) (p_formulae st) (p_casks st).

(** The three lists held when the loop over the file's text ends. *)
Definition parse_text (content : string) : InventoryReport :=
  report_of (parse_lines parse_init (readlines content)).

(** ** The environment and the trace of effects *)

(** What a run does to the outside world, in order. *)
Inductive event : Type :=
| Print (line : string)                       (* one call of [print] *)
| Run (argv : list string)                    (* one call of [subprocess.run] *)
| Dialog (title : string) (items : list string) (* one checklist window *)
| WriteFile (name content : string).          (* the report file *)

Definition trace : Type := list event.

(** How [subprocess.run(argv, check=True)] ends. *)
Inductive run_result : Type :=
| Completed (stdout : string)        (* exit status 0 *)
| CalledProcessError (e : string)    (* non-zero exit; [e] is [str] of the exception *)
| FileNotFoundError                  (* the executable does not exist *)
| OtherError (e : string).           (* any exception the code does not catch *)

(** How the checklist window ends. *)
Inductive dialog_result : Type :=
| Confirmed (checked : nat -> bool)  (* OK pressed; state of checkbox [i] *)
| Closed                             (* window closed without OK *)
| TclError (e : string).             (* the window could not be created *)

(** How reading the file to restore ends: [os.path.isfile] is false; the
    file is read to its end; or [open] or the iteration over its lines
    raises (no permission, bytes that do not decode). *)
Inductive read_result : Type :=
| NotAFile
| FileText (content : string)
| ReadError (e : string).

(** The collaborators of the program.  The package manager and the human
    may answer differently from one call to the next: they see the trace
    so far. *)
Record Env : Type := mkEnv {
  TKINTER_AVAILABLE : bool;
  listdir : string -> option (list string);  (* [None]: not a directory *)
  expanduser : string -> string;
  strftime_now : string;
  read_file : string -> read_result;
  write_error : string -> option string;      (* [Some e]: [open(_, "w")] raises *)
  subprocess_run : trace -> list string -> run_result;
  checklist : trace -> string -> list string -> dialog_result
}.

(** Result of a block of statements: it falls through with a value, executes
    [return], or raises. *)
Inductive res (A : Type) : Type :=
| Val (a : A)
| Return
| Raise (e : string).
Arguments Val {A} a.
Arguments Return {A}.
Arguments Raise {A} e.

(** A block of statements: from the trace so far to a result and the trace
    extended. *)
Definition M (A : Type) : Type := trace -> res A * trace.

Definition ret {A} (a : A) : M A := fun h => (Val a, h).

Definition bind {A B} (c : M A) (k : A -> M B) : M B :=
  fun h =>
    match c h with
    | (Val a, h') => k a h'
    | (Return, h') => (Return, h')
    | (Raise e, h') => (Raise e, h')
    end.

Notation "x <- c ;; k" := (bind c (fun x => k))
  (at level 61, c at next level, right associativity).
Notation "c ;; k" := (bind c (fun _ => k))
  (at level 61, right associativity).

Definition emit (ev : event) : M unit := fun h => (Val tt, h ++ [ev]).
Definition print (line : string) : M unit := emit (Print line).
Definition return_ {A} : M A := fun h => (Return, h).
Definition raise {A} (e : string) : M A := fun h => (Raise e, h).

(** A function body: [return] ends the function, not its caller. *)
Definition def_ (body : M unit) : M unit :=
  fun h =>
    match body h with
    | (Return, h') => (Val tt, h')
    | other => other
    end.

(** [subprocess.run(argv, ..., check=True)] *)
Definition run (env : Env) (argv : list string) : M run_result :=
  fun h => (Val (subprocess_run env h argv), h ++ [Run argv]).

(** ** Inventory collector *)

(** [os.path.isdir] and [os.listdir] are taken not to raise: a directory is
    either absent or listed. *)
Definition get_installed_apps (env : Env) : list string :=
  let app_dirs := ["/Applications"; expanduser env "~/Applications"] in
  let found :=
    flat_map
      (fun app_dir =>
         match listdir env app_dir with
         | Some entries =>
             map (fun app => replace app ".app" "")
                 (filter (fun app => endswith app ".app") entries)
         | None => []
         end)
      app_dirs in
  sorted (set_list found).

(** The shared body of [get_brew_packages] and [get_brew_casks]. *)
Definition brew_list (env : Env) (flag : string) : M (list string) :=
  result <- run env ["brew"; "list"; flag] ;;
  match result with
  | Completed stdout => ret (split_nl (strip stdout))
  | CalledProcessError _ => ret []
  | FileNotFoundError => ret []
  | OtherError e => raise e
  end.

Definition get_brew_packages (env : Env) : M (list string) :=
  brew_list env "--formula".

Definition get_brew_casks (env : Env) : M (list string) :=
  brew_list env "--cask".

(** ** Index mode *)

Definition report_filename (env : Env) : string :=
  "macos_installed_software_" +++ strftime_now env +++ ".txt".

(** The [with open(filename, "w")] block as one event: either [open] raises
    or the whole text is written. *)
Definition write_file (env : Env) (name content : string) : M unit :=
  match write_error env name with
  | Some e => raise e
  | None => emit (WriteFile name content)
  end.

Definition run_index_mode (env : Env) : M unit :=
  def_ (
    let filename := report_filename env in
    let installed_apps := get_installed_apps env in
    brew_formulae <- get_brew_packages env ;;
    brew_casks <- get_brew_casks env ;;
    write_file env filename
      (write_report (mkReport installed_apps brew_formulae brew_casks)) ;;
    print ("Report saved to: " +++ filename)).

(** ** Selection gate *)

(** [[item for item, var in vars if var.get()]], the checkbox of the item at
    position [i] being [checked i]. *)
Fixpoint checked_items (checked : nat -> bool) (i : nat) (items : list string)
  : list string :=
  match items with
  | [] => []
  | item :: rest =>
      if checked i then item :: checked_items checked (S i) rest
      else checked_items checked (S i) rest
  end.

Definition select_items_with_tkinter (env : Env) (title : string)
  (items : list string) : M (list string) :=
  if negb (TKINTER_AVAILABLE env) || negb (truthy items) then ret items
  else
    fun h =>
      match checklist env h title items with
      | Confirmed checked =>
          (Val (checked_items checked 0 items), h ++ [Dialog title items])
      | Closed => (Val [], h ++ [Dialog title items])
      | TclError e => (Raise e, h)
      end.

(** ** Restore mode *)

Definition formula_argv (formula : string) : list string :=
  ["brew"; "install"; formula].

Definition cask_argv (cask : string) : list string :=
  ["brew"; "install"; "--cask"; cask].

Definition installing_msg (kind item : string) : string :=
  "Installing brew " +++ kind +++ " '" +++ item +++ "'...".

Definition failed_msg (item e : string) : string :=
  "  > Failed to install '" +++ item +++ "': " +++ e +++ ". Continuing...".

Definition BREW_MISSING_MSG : string :=
  "  > ERROR: 'brew' command not found. Please install Homebrew first.".

(** The two [for] loops over the selected formulae and casks; they differ by
    the word printed ([kind]) and by the command line ([argv]). *)
Fixpoint install_loop (env : Env) (kind : string)
  (argv : string -> list string) (items : list string) : M unit :=
  match items with
  | [] => ret tt
  | item :: rest =>
      print (installing_msg kind item) ;;
      result <- run env (argv item) ;;
      match result with
      | Completed _ => install_loop env kind argv rest
      | CalledProcessError e =>
          print (failed_msg item e) ;;
          install_loop env kind argv rest
      | FileNotFoundError =>
          print BREW_MISSING_MSG ;;
          return_
      | OtherError e => raise e
      end
  end.

Definition NOTE_MSG : string :=
  nl +++ "NOTE: For interactive selection, Tkinter must be available (usually included with Python). Proceeding to install all items..." +++ nl.

(** The selection step: the lists to install. *)
Definition select_stage (env : Env) (formulae casks : list string)
  : M (list string * list string) :=
  if TKINTER_AVAILABLE env then
    formulae' <-
      (if truthy formulae
       then select_items_with_tkinter env "Select Homebrew Formulae to install" formulae
       else ret formulae) ;;
    casks' <-
      (if truthy casks
       then select_items_with_tkinter env "Select Homebrew Casks to install" casks
       else ret casks) ;;
    ret (formulae', casks')
  else
    (if truthy formulae || truthy casks then print NOTE_MSG else ret tt) ;;
    ret (formulae, casks).

Fixpoint print_apps (apps : list string) : M unit :=
  match apps with
  | [] => ret tt
  | app :: rest => print ("  - " +++ app) ;; print_apps rest
  end.

(** The closing [if apps:] block. *)
Definition manual_list (apps : list string) : M unit :=
  if truthy apps then
    print (nl +++ "--- Manual Application Installation Required ---") ;;
    print "The following applications cannot be installed automatically." ;;
    print "Please install them manually from the App Store or developer websites:" ;;
    print_apps apps
  else ret tt.

Definition COMPLETE_MSG : string := nl +++ "--- Restore process complete. ---".

Definition not_found_msg (filepath : string) : string :=
  "Error: File not found at '" +++ filepath +++ "'".

Definition run_restore_mode (env : Env) (filepath : string) : M unit :=
  def_ (
    match read_file env filepath with
    | NotAFile => print (not_found_msg filepath) ;; return_
    | ReadError e =>
        print ("--- Parsing software list from " +++ filepath +++ " ---") ;;
        raise e
    | FileText content =>
        print ("--- Parsing software list from " +++ filepath +++ " ---") ;;
        let parsed := parse_text content in
        selected <- select_stage env (formulae parsed) (casks parsed) ;;
        let '(formulae, casks) := selected in
        (if truthy formulae then
           print (nl +++ "--- Installing Homebrew Formulae ---") ;;
           install_loop env "formula" formula_argv formulae
         else ret tt) ;;
        (if truthy casks then
           print (nl +++ "--- Installing Homebrew Casks ---") ;;
           install_loop env "cask" cask_argv casks
         else ret tt) ;;
        manual_list (applications parsed) ;;
        print COMPLETE_MSG
    end).

(** ** Predicates used by the statements *)

(** No line terminator of the reading side occurs in [s]. *)
Fixpoint single_line (s : string) : bool :=
  match s with
  | EmptyString => true
  | String c s' =>
      negb (Ascii.eqb c LF) && negb (Ascii.eqb c CR) && single_line s'
  end.

(** The parser drops a trimmed line with one of these prefixes. *)
Definition swallowed (line : string) : bool :=
  startswith line "No " || startswith line "Homebrew not found".

(** A name that the parser reads back as one line of content: a single
    line that, once trimmed, is not taken for a header. *)
Definition plain_name (n : string) : bool :=
  single_line n && negb (startswith (strip n) "###").

(** A name that the parser reads back as itself, unless it is swallowed. *)
Definition clean_name (n : string) : bool :=
  plain_name n && negb (is_empty n) && String.eqb (strip n) n.

(** What the parser keeps of a written list of plain names. *)
Definition kept (line : string) : bool :=
  negb (is_empty line) && negb (swallowed line).

Definition keep (names : list string) : list string :=
  filter kept (map strip names).

Definition all_names (r : InventoryReport) : list string :=
  applications r ++ formulae r ++ casks r.

Definition str_le (a b : string) : Prop := String.leb a b = true.

(** The lines of one section's body and of a whole report, without their
    terminators. *)
Definition body_lines (items : list string) (sentinel : string) : list string :=
  if truthy items then items else [sentinel].

Definition report_lines (r : InventoryReport) : list string :=
  APPS_HEADER :: body_lines (applications r) APPS_SENTINEL
  ++ EmptyString :: FORMULAE_HEADER :: body_lines (formulae r) FORMULAE_SENTINEL
  ++ EmptyString :: CASKS_HEADER :: body_lines (casks r) CASKS_SENTINEL.

(** The parser state after [names] were appended to the list of section [t]. *)
Definition extend (st : ParseState) (t : section_tag) (names : list string)
  : ParseState :=
  match t with
  | SecApps =>
      mkParse (current_section st) (apps st ++ names) (p_formulae st) (p_casks st)
  | SecFormulae =>
      mkParse (current_section st) (apps st) (p_formulae st ++ names) (p_casks st)
  | SecCasks =>
      mkParse (current_section st) (apps st) (p_formulae st) (p_casks st ++ names)
  end.

(** A list with the swallowed names left out. *)
Definition unswallowed (names : list string) : list string :=
  filter (fun n => negb (swallowed n)) names.

(** Every name held by the parser passed its two tests: it is not blank and
    has no sentinel prefix. *)
Definition names_kept (st : ParseState) : Prop :=
  forall n, In n (apps st ++ p_formulae st ++ p_casks st) -> kept n = true.

(** ** Reading a trace *)

(** The command lines spawned in a trace, in order. *)
Fixpoint runs (tr : trace) : list (list string) :=
  match tr with
  | [] => []
  | Run argv :: tr' => argv :: runs tr'
  | _ :: tr' => runs tr'
  end.

(** No process spawned in [tr], a trace that follows [h], found its
    executable missing. *)
Definition missing_free (env : Env) (h tr : trace) : Prop :=
  forall pre argv post,
    tr = pre ++ Run argv :: post ->
    subprocess_run env (h ++ pre) argv <> FileNotFoundError.

(** A listing that fails the way the collector catches. *)
Definition listing_failed (r : run_result) : Prop :=
  r = FileNotFoundError \/ exists e, r = CalledProcessError e.

(** The events of the closing [if apps:] block. *)
Definition manual_events (apps : list string) : trace :=
  if truthy apps then
    Print (nl +++ "--- Manual Application Installation Required ---")
    :: Print "The following applications cannot be installed automatically."
    :: Print "Please install them manually from the App Store or developer websites:"
    :: map (fun app => Print ("  - " +++ app)) apps
  else [].

(** ** Command dispatcher *)

(** What [parser.parse_args()] returns: the flag [--index] and the value of
    [--restore], [None] when the option is absent. *)
Record Namespace : Type := mkArgs {
  args_index : bool;
  args_restore : option string
}.

Definition INDEX_BANNER : string := "--- Running in Index Mode ---".

(** [main], from the parsed arguments on.  A string is true when it is not
    empty. *)
Definition main (env : Env) (args : Namespace) : M unit :=
  def_ (
    match args_restore args with
    | Some filepath =>
        if negb (is_empty filepath) then run_restore_mode env filepath
        else print INDEX_BANNER ;; run_index_mode env
    | None => print INDEX_BANNER ;; run_index_mode env
    end).

(** ** More predicates *)

(** [l1] is [l2] with some elements left out, the order being kept. *)
Inductive subseq {A : Type} : list A -> list A -> Prop :=
| subseq_nil : subseq [] []
| subseq_keep x l1 l2 : subseq l1 l2 -> subseq (x :: l1) (x :: l2)
| subseq_drop x l1 l2 : subseq l1 l2 -> subseq l1 (x :: l2).

(** The directories scanned by [get_installed_apps]. *)
Definition app_dirs (env : Env) : list string :=
  ["/Applications"; expanduser env "~/Applications"].

(** Two answers of [os.path.isdir]/[os.listdir] that agree up to the order
    and the repetition of the entries. *)
Definition same_entries (a b : option (list string)) : Prop :=
  match a, b with
  | Some l, Some l' => forall e, In e l <-> In e l'
  | None, None => True
  | _, _ => False
  end.

Definition header_of (t : section_tag) : string :=
  match t with
  | SecApps => APPS_HEADER
  | SecFormulae => FORMULAE_HEADER
  | SecCasks => CASKS_HEADER
  end.

Definition tag_eqb (a b : section_tag) : bool :=
  match a, b with
  | SecApps, SecApps | SecFormulae, SecFormulae | SecCasks, SecCasks => true
  | _, _ => false
  end.

(** The lines of a section of an artifact: its header, then its names. *)
Definition section_lines (sec : section_tag * list string) : list string :=
  header_of (fst sec) :: snd sec.

(** What the sections tagged [t] contribute, in file order. *)
Definition names_of (t : section_tag) (secs : list (section_tag * list string))
  : list string :=
  flat_map (fun sec => if tag_eqb t (fst sec) then keep (snd sec) else []) secs.

(** All the names held by the parser. *)
Definition state_names (st : ParseState) : list string :=
  apps st ++ p_formulae st ++ p_casks st.

(** In [tr], a trace that follows [h], every process that exited non-zero
    is followed at once by the line reporting as failed an item to which [P]
    relates its command line. *)
Definition logged (env : Env) (P : list string -> string -> Prop)
  (h tr : trace) : Prop :=
  forall pre argv post e,
    tr = pre ++ Run argv :: post ->
    subprocess_run env (h ++ pre) argv = CalledProcessError e ->
    exists item post',
      P argv item /\ post = Print (failed_msg item e) :: post'.

(** The files written in a trace, in order. *)
Fixpoint writes (tr : trace) : list (string * string) :=
  match tr with
  | [] => []
  | WriteFile name content :: tr' => (name, content) :: writes tr'
  | _ :: tr' => writes tr'
  end.

(** The checklist windows opened in a trace, in order. *)
Fixpoint dialogs (tr : trace) : list (string * list string) :=
  match tr with
  | [] => []
  | Dialog title items :: tr' => (title, items) :: dialogs tr'
  | _ :: tr' => dialogs tr'
  end.

(** A trimmed line that moves the parser to a section. *)
Definition known_header (line : string) : bool :=
  startswith line "###"
  && (contains "macOS Installed Applications" line
      || contains "Homebrew Formulae" line
      || contains "Homebrew Casks" line).

(** ** Sample inputs *)

(** One application, and the formula list that [get_brew_packages] returns
    for an empty listing. *)
Definition report_blank_formula : InventoryReport :=
  mkReport ["Safari"; "Xcode"] [""] [].

(** An application bundle named like a section header. *)
Definition report_header_app : InventoryReport :=
  mkReport ["### Homebrew Formulae ###"; "zoom"] [] [].

Definition report_sample : InventoryReport :=
  mkReport ["Safari"; "Xcode"] ["git"; "No Man's Sky"; "wget"] ["firefox"].

Definition report_no_packages : InventoryReport :=
  mkReport ["Safari"] [] [].

(** The artifact of the end-to-end example. *)
Definition artifact_example : string :=
  "### Homebrew Formulae ###" +++ nl +++ "wget" +++ nl +++ "git" +++ nl
  +++ nl +++ "### Homebrew Casks ###" +++ nl +++ "No Homebrew... " +++ nl.

(** ** Sample environments *)

Definition argv_eqb (a b : list string) : bool :=
  if list_eq_dec string_dec a b then true else false.

(** A machine without Tkinter whose directories, files and package manager
    are given. *)
Definition sample_env (dirs : string -> option (list string))
  (files : string -> read_result) (brew : list string -> run_result) : Env :=
  mkEnv false dirs (fun _ => "/Users/me/Applications") "2024-05-01_09-30-00"
        files (fun _ => None) (fun _ => brew) (fun _ _ _ => Closed).

Definition only_file (name content : string) (path : string) : read_result :=
  if String.eqb path name then FileText content else NotAFile.

(** No Homebrew, no application directory, no file. *)
Definition env_bare : Env :=
  sample_env (fun _ => None) (fun _ => NotAFile) (fun _ => FileNotFoundError).

(** No Homebrew, and an inventory to restore. *)
Definition env_no_brew : Env :=
  sample_env (fun _ => None)
    (only_file "inventory.txt" (write_report report_sample))
    (fun _ => FileNotFoundError).

Definition STATUS_1 : string :=
  "Command '['brew', 'install', 'b']' returned non-zero exit status 1.".

(** Homebrew installs everything but "b". *)
Definition env_b_fails : Env :=
  sample_env (fun _ => None) (fun _ => NotAFile)
    (fun argv =>
       if argv_eqb argv (formula_argv "b") then CalledProcessError STATUS_1
       else Completed EmptyString).

(** Homebrew is there and lists nothing. *)
Definition env_empty_brew : Env :=
  sample_env (fun _ => None) (fun _ => NotAFile) (fun _ => Completed EmptyString).

(** A bundle whose name holds ".app" before its suffix. *)
Definition env_backup_bundle : Env :=
  sample_env
    (fun d => if String.eqb d "/Applications"
              then Some ["Editor.app.backup.app"; "Safari.app"; "README.txt"]
              else None)
    (fun _ => NotAFile) (fun _ => FileNotFoundError).

(** The same bundles, listed by the system in two different orders. *)
Definition env_listing_a : Env :=
  sample_env
    (fun d => if String.eqb d "/Applications"
              then Some ["Safari.app"; "Xcode.app"; "notes.txt"]
              else if String.eqb d "/Users/me/Applications"
              then Some ["Safari.app"; "iTerm.app"]
              else None)
    (fun _ => NotAFile) (fun _ => FileNotFoundError).

Definition env_listing_b : Env :=
  sample_env
    (fun d => if String.eqb d "/Applications"
              then Some ["notes.txt"; "Xcode.app"; "Safari.app"]
              else if String.eqb d "/Users/me/Applications"
              then Some ["iTerm.app"; "Safari.app"]
              else None)
    (fun _ => NotAFile) (fun _ => FileNotFoundError).

(** Homebrew lists two formulae and one cask. *)
Definition env_brew_lists : Env :=
  sample_env (fun _ => None) (fun _ => NotAFile)
    (fun argv =>
       if argv_eqb argv ["brew"; "list"; "--formula"]
       then Completed ("git" +++ nl +++ "wget" +++ nl)
       else Completed ("firefox" +++ nl)).

(** A machine with Tkinter, an inventory to restore and a working Homebrew;
    the human unchecks every second box and presses OK. *)
Definition env_tk : Env :=
  mkEnv true (fun _ => None) (fun _ => "/Users/me/Applications")
        "2024-05-01_09-30-00"
        (only_file "inventory.txt" (write_report report_sample))
        (fun _ => None) (fun _ _ => Completed EmptyString)
        (fun _ _ _ => Confirmed Nat.even).

(** A machine on which the report is written and then read again: one
    bundle, two formulae and one cask listed, every install succeeding. *)
Definition env_pipeline : Env :=
  sample_env
    (fun d => if String.eqb d "/Applications" then Some ["Safari.app"] else None)
    (only_file "macos_installed_software_2024-05-01_09-30-00.txt"
       (write_report (mkReport ["Safari"] ["git"; "wget"] ["firefox"])))
    (fun argv =>
       if argv_eqb argv ["brew"; "list"; "--formula"]
       then Completed ("git" +++ nl +++ "wget" +++ nl)
       else if argv_eqb argv ["brew"; "list"; "--cask"]
       then Completed ("firefox" +++ nl)
       else Completed EmptyString).

(** The batch of three formulae to restore, "b" failing to install. *)
Definition env_abc : Env :=
  sample_env (fun _ => None)
    (only_file "inventory.txt"
       ("### Homebrew Formulae ###" +++ nl +++ "a" +++ nl +++ "b" +++ nl
        +++ "c" +++ nl))
    (fun argv =>
       if argv_eqb argv (formula_argv "b") then CalledProcessError STATUS_1
       else Completed EmptyString).

(** An application bundle named like a section header, and a Homebrew
    that lists nothing. *)
Definition env_header_bundle : Env :=
  sample_env
    (fun d => if String.eqb d "/Applications"
              then Some ["### Homebrew Formulae ###.app"; "zoom.app"]
              else None)
    (fun _ => NotAFile) (fun _ => Completed EmptyString).

Example strip_ex : strip ("  a b " +++ nl) = "a b".
Proof. reflexivity. Qed.
Example replace_ex : replace "x.app.y.app" ".app" "" = "x.y".
Proof. reflexivity. Qed.
Example split_ex : split_nl ("a" +++ nl +++ "b") = ["a"; "b"].
Proof. reflexivity. Qed.
Example readlines_ex :
  readlines ("a" +++ String CR nl +++ "b" +++ nl +++ nl +++ "c")
  = ["a" +++ nl; "b" +++ nl; nl; "c"].
Proof. reflexivity. Qed.
Example sorted_ex : sorted (set_list ["b"; "a"; "b"; "B"]) = ["B"; "a"; "b"].
Proof. reflexivity. Qed.

Example roundtrip_ex :
  parse_text (write_report (mkReport ["A"; "B c"] [] ["x"]))
  = mkReport ["A"; "B c"] [] ["x"].
Proof. vm_compute. reflexivity. Qed.

(** ** Strings and lines *)

Lemma append_assoc (a b c : string) : (a +++ b) +++ c = a +++ (b +++ c).
Proof. induction a as [|x a IH]; simpl; [reflexivity | now rewrite IH]. Qed.

Lemma append_nil_r (a : string) : a +++ EmptyString = a.
Proof. induction a as [|x a IH]; simpl; [reflexivity | now rewrite IH]. Qed.

Lemma isspace_LF : isspace LF = true.
Proof. reflexivity. Qed.

Lemma rstrip_nl (s : string) : rstrip (s +++ nl) = rstrip s.
Proof.
  induction s as [|c s IH]; simpl; [reflexivity | now rewrite IH].
Qed.

Lemma lstrip_nl (s : string) :
  lstrip (s +++ nl) = lstrip s +++ nl
  \/ (lstrip (s +++ nl) = EmptyString /\ lstrip s = EmptyString).
Proof.
  induction s as [|c s IH]; simpl.
  - right; split; reflexivity.
  - destruct (isspace c); [exact IH | left; reflexivity].
Qed.

Lemma strip_nl (s : string) : strip (s +++ nl) = strip s.
Proof.
  unfold strip. destruct (lstrip_nl s) as [-> | [-> ->]].
  - apply rstrip_nl.
  - reflexivity.
Qed.

Lemma readlines_from_line (name rest : string) :
  single_line name = true ->
  forall cur,
    readlines_from cur (name +++ nl +++ rest)
    = (cur +++ name +++ nl) :: readlines_from EmptyString rest.
Proof.
  induction name as [|c name IH]; intros Hs cur.
  - reflexivity.
  - simpl in Hs. apply andb_true_iff in Hs as [Hc Hs].
    apply andb_true_iff in Hc as [Hlf Hcr].
    apply negb_true_iff in Hlf, Hcr.
    simpl. rewrite Hlf, Hcr. rewrite (IH Hs).
    now rewrite append_assoc.
Qed.

Lemma readlines_from_nl (cur rest : string) :
  readlines_from cur (nl +++ rest)
  = (cur +++ nl) :: readlines_from EmptyString rest.
Proof. reflexivity. Qed.

Lemma readlines_write_items (items : list string) (rest : string) :
  forallb single_line items = true ->
  readlines_from EmptyString (write_items items +++ rest)
  = map (fun x => x +++ nl) items ++ readlines_from EmptyString rest.
Proof.
  induction items as [|x items IH]; intros H; simpl.
  - reflexivity.
  - simpl in H. apply andb_true_iff in H as [Hx H].
    rewrite !append_assoc. rewrite (readlines_from_line x _ Hx).
    simpl. now rewrite (IH H).
Qed.

Lemma readlines_write_body (items : list string) (sentinel rest : string) :
  forallb single_line items = true ->
  single_line sentinel = true ->
  readlines_from EmptyString (write_body items sentinel +++ rest)
  = map (fun x => x +++ nl) (body_lines items sentinel)
    ++ readlines_from EmptyString rest.
Proof.
  intros Hi Hs. unfold write_body, body_lines.
  destruct (truthy items).
  - now apply readlines_write_items.
  - rewrite append_assoc. now rewrite (readlines_from_line sentinel _ Hs).
Qed.

Lemma forallb_app_true {A} (f : A -> bool) (l1 l2 : list A) :
  forallb f (l1 ++ l2) = true -> forallb f l1 = true /\ forallb f l2 = true.
Proof. rewrite forallb_app. apply andb_true_iff. Qed.

Lemma readlines_write_report (r : InventoryReport) :
  forallb single_line (all_names r) = true ->
  readlines (write_report r) = map (fun x => x +++ nl) (report_lines r).
Proof.
  intros H. unfold all_names in H.
  apply forallb_app_true in H as [Ha H].
  apply forallb_app_true in H as [Hf Hc].
  unfold readlines, write_report, report_lines.
  rewrite !append_assoc.
  rewrite (readlines_from_line APPS_HEADER _ eq_refl EmptyString).
  rewrite (readlines_write_body _ APPS_SENTINEL _ Ha eq_refl), readlines_from_nl.
  rewrite (readlines_from_line FORMULAE_HEADER _ eq_refl EmptyString).
  rewrite (readlines_write_body _ FORMULAE_SENTINEL _ Hf eq_refl), readlines_from_nl.
  rewrite (readlines_from_line CASKS_HEADER _ eq_refl EmptyString).
  rewrite <- (append_nil_r (write_body (casks r) CASKS_SENTINEL)).
  rewrite (readlines_write_body _ CASKS_SENTINEL _ Hc eq_refl).
  simpl. rewrite !map_app. simpl. rewrite !map_app. simpl.
  rewrite app_nil_r. reflexivity.
Qed.

(** ** The parser on the lines of a written report *)

Lemma parse_line_nl (st : ParseState) (x : string) :
  parse_line st (x +++ nl) = parse_line st x.
Proof. unfold parse_line. now rewrite strip_nl. Qed.

Lemma parse_lines_nl (ls : list string) :
  forall st, parse_lines st (map (fun x => x +++ nl) ls) = parse_lines st ls.
Proof.
  induction ls as [|x ls IH]; intros st; simpl; [reflexivity|].
  rewrite parse_line_nl. apply IH.
Qed.

Lemma parse_lines_app (st : ParseState) (l1 l2 : list string) :
  parse_lines st (l1 ++ l2) = parse_lines (parse_lines st l1) l2.
Proof. apply fold_left_app. Qed.

Lemma extend_nil (st : ParseState) (t : section_tag) : extend st t [] = st.
Proof. destruct st, t; simpl; now rewrite app_nil_r. Qed.

Lemma extend_append (st : ParseState) (t : section_tag) (x : string)
  (l : list string) :
  extend (append_to st t x) t l = extend st t (x :: l).
Proof. destruct t; simpl; now rewrite <- app_assoc. Qed.

Lemma current_section_append (st : ParseState) (t : section_tag) (x : string) :
  current_section (append_to st t x) = current_section st.
Proof. now destruct t. Qed.

Lemma parse_line_plain (st : ParseState) (t : section_tag) (x : string) :
  current_section st = Some t ->
  plain_name x = true ->
  parse_line st x = if kept (strip x) then append_to st t (strip x) else st.
Proof.
  intros Hsec Hp. apply andb_true_iff in Hp as [_ Hh].
  apply negb_true_iff in Hh.
  unfold parse_line, kept, swallowed. rewrite Hh, Hsec.
  destruct (is_empty (strip x)); [reflexivity|].
  simpl. rewrite negb_orb. reflexivity.
Qed.

Lemma parse_lines_plain (t : section_tag) (items : list string) :
  forallb plain_name items = true ->
  forall st, current_section st = Some t ->
    parse_lines st items = extend st t (keep items).
Proof.
  induction items as [|x items IH]; intros Hp st Hsec.
  - simpl. now rewrite extend_nil.
  - simpl in Hp. apply andb_true_iff in Hp as [Hx Hp].
    simpl. rewrite (parse_line_plain st t x Hsec Hx).
    unfold keep. simpl. fold (keep items).
    destruct (kept (strip x)).
    + rewrite (IH Hp); [apply extend_append|].
      now rewrite current_section_append.
    + now apply IH.
Qed.

Lemma parse_lines_body (t : section_tag) (items : list string)
  (sentinel : string) :
  forallb plain_name items = true ->
  (forall st, parse_line st sentinel = st) ->
  forall st, current_section st = Some t ->
    parse_lines st (body_lines items sentinel) = extend st t (keep items).
Proof.
  intros Hp Hsen st Hsec. unfold body_lines.
  destruct items as [|x items].
  - simpl. rewrite Hsen. now rewrite extend_nil.
  - now apply parse_lines_plain.
Qed.

Lemma parse_line_sentinel (st : ParseState) :
  parse_line st APPS_SENTINEL = st
  /\ parse_line st FORMULAE_SENTINEL = st
  /\ parse_line st CASKS_SENTINEL = st.
Proof.
  unfold parse_line. repeat split; destruct (current_section st); reflexivity.
Qed.

Lemma plain_single_line (names : list string) :
  forallb plain_name names = true -> forallb single_line names = true.
Proof.
  induction names as [|x names IH]; simpl; [reflexivity|].
  intros H. apply andb_true_iff in H as [Hx H].
  apply andb_true_iff in Hx as [Hx _]. now rewrite Hx, IH.
Qed.

(** What restore mode reads back from what index mode wrote, for plain
    names: every name trimmed, blank and swallowed ones left out. *)
Lemma parse_write_plain (r : InventoryReport) :
  forallb plain_name (all_names r) = true ->
  parse_text (write_report r)
  = mkReport (keep (applications r)) (keep (formulae r)) (keep (casks r)).
Proof.
  intros H. unfold parse_text.
  rewrite (readlines_write_report r (plain_single_line _ H)).
  rewrite parse_lines_nl.
  unfold all_names in H.
  apply forallb_app_true in H as [Ha H].
  apply forallb_app_true in H as [Hf Hc].
  unfold report_lines.
  change (parse_lines parse_init (APPS_HEADER :: ?l))
    with (parse_lines (set_section parse_init SecApps) l).
  rewrite parse_lines_app.
  rewrite (parse_lines_body SecApps _ _ Ha
             (fun st => proj1 (parse_line_sentinel st))) by reflexivity.
  match goal with |- context [parse_lines ?st (EmptyString :: FORMULAE_HEADER :: ?l)] =>
    change (parse_lines st (EmptyString :: FORMULAE_HEADER :: l))
      with (parse_lines (set_section st SecFormulae) l) end.
  rewrite parse_lines_app.
  rewrite (parse_lines_body SecFormulae _ _ Hf
             (fun st => proj1 (proj2 (parse_line_sentinel st)))) by reflexivity.
  match goal with |- context [parse_lines ?st (EmptyString :: CASKS_HEADER :: ?l)] =>
    change (parse_lines st (EmptyString :: CASKS_HEADER :: l))
      with (parse_lines (set_section st SecCasks) l) end.
  rewrite (parse_lines_body SecCasks _ _ Hc
             (fun st => proj2 (proj2 (parse_line_sentinel st)))) by reflexivity.
  reflexivity.
Qed.

Lemma keep_clean (names : list string) :
  forallb clean_name names = true -> keep names = unswallowed names.
Proof.
  induction names as [|x names IH]; intros H; [reflexivity|].
  simpl in H. apply andb_true_iff in H as [Hx H].
  unfold clean_name in Hx.
  apply andb_true_iff in Hx as [Hx Hstrip].
  apply andb_true_iff in Hx as [_ Hne].
  apply String.eqb_eq in Hstrip.
  unfold keep, unswallowed. simpl. rewrite Hstrip.
  unfold kept at 1. rewrite Hne. simpl.
  fold (keep names). fold (unswallowed names). now rewrite (IH H).
Qed.

Lemma clean_plain (names : list string) :
  forallb clean_name names = true -> forallb plain_name names = true.
Proof.
  induction names as [|x names IH]; simpl; [reflexivity|].
  intros H. apply andb_true_iff in H as [Hx H].
  unfold clean_name in Hx.
  apply andb_true_iff in Hx as [Hx _].
  apply andb_true_iff in Hx as [Hx _]. now rewrite Hx, IH.
Qed.

Lemma unswallowed_id (names : list string) :
  forallb (fun n => negb (swallowed n)) names = true ->
  unswallowed names = names.
Proof.
  induction names as [|x names IH]; simpl; [reflexivity|].
  intros H. apply andb_true_iff in H as [Hx H].
  unfold unswallowed. simpl. rewrite Hx.
  fold (unswallowed names). now rewrite IH.
Qed.

Lemma parse_line_kept (st : ParseState) (raw : string) :
  names_kept st -> names_kept (parse_line st raw).
Proof.
  intros Hst. unfold parse_line.
  destruct (is_empty (strip raw)) eqn:He; [exact Hst|].
  destruct (startswith (strip raw) "###").
  - repeat match goal with |- context [if ?b then _ else _] => destruct b end;
      exact Hst.
  - destruct (current_section st) as [t|]; [|exact Hst].
    destruct (negb (startswith (strip raw) "No ")
              && negb (startswith (strip raw) "Homebrew not found")) eqn:Hk;
      [|exact Hst].
    assert (Hkept : kept (strip raw) = true).
    { unfold kept, swallowed. rewrite He, negb_orb. exact Hk. }
    intros n Hn. destruct t; simpl in Hn;
      repeat (apply in_app_or in Hn as [Hn|Hn]);
      try (apply Hst; repeat (apply in_or_app; (left; assumption) || right);
           assumption);
      try (destruct Hn as [<-|[]]; exact Hkept);
      apply Hst; apply in_or_app; right; apply in_or_app; auto.
Qed.

Lemma parse_lines_kept (lines : list string) :
  forall st, names_kept st -> names_kept (parse_lines st lines).
Proof.
  induction lines as [|x lines IH]; intros st Hst; [exact Hst|].
  simpl. apply IH. now apply parse_line_kept.
Qed.

Lemma parse_text_kept (content : string) (n : string) :
  In n (all_names (parse_text content)) -> kept n = true.
Proof.
  unfold parse_text, all_names, report_of. simpl.
  apply (parse_lines_kept (readlines content) parse_init).
  intros m [].
Qed.

(** ** Round trip of the report (claims C1, C7) *)

(** C1, as stated, fails: the report below has a non-empty, duplicate-free,
    sorted application list and no name with a sentinel prefix, yet restore
    mode does not read back the formula list that index mode wrote.  The
    one-element list holding the empty string is what [get_brew_packages]
    returns when the listing is empty. *)
Lemma roundtrip_blank_formula_lost :
  applications report_blank_formula <> []
  /\ NoDup (applications report_blank_formula)
  /\ Sorted str_le (applications report_blank_formula)
  /\ forallb (fun n => negb (swallowed n)) (all_names report_blank_formula) = true
  /\ formulae (parse_text (write_report report_blank_formula)) = []
  /\ parse_text (write_report report_blank_formula) <> report_blank_formula.
Proof.
  repeat split.
  - discriminate.
  - repeat constructor; simpl; intuition discriminate.
  - repeat constructor.
  - intros H. vm_compute in H. discriminate.
Qed.

(** C1, amended: when every name of the report is non-empty, holds no line
    terminator, has no white space at either end and does not begin with
    "###", parsing the written artifact gives back the three lists with
    exactly the names beginning with "No " or "Homebrew not found" left out,
    hence the three lists themselves when no name begins so. *)
Theorem roundtrip_clean_names (r : InventoryReport) :
  forallb clean_name (all_names r) = true ->
  parse_text (write_report r)
  = mkReport (unswallowed (applications r)) (unswallowed (formulae r))
             (unswallowed (casks r))
  /\ (forallb (fun n => negb (swallowed n)) (all_names r) = true ->
      parse_text (write_report r) = r).
Proof.
  intros H.
  assert (E : parse_text (write_report r)
              = mkReport (unswallowed (applications r))
                  (unswallowed (formulae r)) (unswallowed (casks r))).
  { rewrite (parse_write_plain r (clean_plain _ H)).
    unfold all_names in H.
    apply forallb_app_true in H as [Ha H].
    apply forallb_app_true in H as [Hf Hc].
    now rewrite !keep_clean. }
  split; [exact E|].
  intros Hs. rewrite E. unfold all_names in Hs.
  apply forallb_app_true in Hs as [Ha Hs].
  apply forallb_app_true in Hs as [Hf Hc].
  rewrite !unswallowed_id by assumption. now destruct r.
Qed.

Lemma roundtrip_clean_names_witness :
  forallb clean_name (all_names report_sample) = true
  /\ parse_text (write_report report_sample)
     = mkReport ["Safari"; "Xcode"] ["git"; "wget"] ["firefox"].
Proof.
  split; [reflexivity|].
  exact (proj1 (roundtrip_clean_names report_sample eq_refl)).
Defined.

(** C7, as stated, fails: an application named like the formulae header
    moves the parser to the formulae section, so the names after it are read
    back as formulae although the formula list was empty. *)
Lemma empty_section_filled_by_header_name :
  formulae report_header_app = []
  /\ formulae (parse_text (write_report report_header_app)) = ["zoom"].
Proof. split; reflexivity. Qed.

(** C7, amended: a section that is empty is written as exactly its sentinel
    line, right after its header; when no name of the report holds a line
    terminator or begins, once trimmed, with "###", the sentinel line is a
    line of the artifact and parsing the artifact gives the empty list for
    that section; and whatever the artifact, no parsed name begins with a
    sentinel prefix, so a sentinel line is never returned as a name. *)
Theorem empty_section_sentinel (r : InventoryReport) :
  write_report r
  = "### macOS Installed Applications ###" +++ nl
    +++ match applications r with
        | [] => "No applications found in /Applications or ~/Applications."
                +++ nl
        | _ :: _ => write_items (applications r)
        end
    +++ nl +++ "### Homebrew Formulae ###" +++ nl
    +++ match formulae r with
        | [] => "Homebrew not found or no formulae installed." +++ nl
        | _ :: _ => write_items (formulae r)
        end
    +++ nl +++ "### Homebrew Casks ###" +++ nl
    +++ match casks r with
        | [] => "Homebrew not found or no casks installed." +++ nl
        | _ :: _ => write_items (casks r)
        end
  /\ (forallb plain_name (all_names r) = true ->
      (applications r = [] ->
       In ("No applications found in /Applications or ~/Applications." +++ nl)
          (readlines (write_report r))
       /\ applications (parse_text (write_report r)) = [])
      /\ (formulae r = [] ->
          In ("Homebrew not found or no formulae installed." +++ nl)
             (readlines (write_report r))
          /\ formulae (parse_text (write_report r)) = [])
      /\ (casks r = [] ->
          In ("Homebrew not found or no casks installed." +++ nl)
             (readlines (write_report r))
          /\ casks (parse_text (write_report r)) = []))
  /\ (forall content n,
        In n (all_names (parse_text content)) ->
        swallowed n = false
        /\ n <> "No applications found in /Applications or ~/Applications."
        /\ n <> "Homebrew not found or no formulae installed."
        /\ n <> "Homebrew not found or no casks installed.").
Proof.
  split; [|split].
  - unfold write_report, write_body.
    destruct (applications r), (formulae r), (casks r); cbn [truthy];
      repeat rewrite append_assoc; reflexivity.
  - intros H. rewrite (parse_write_plain r H).
    rewrite (readlines_write_report r (plain_single_line _ H)).
    unfold report_lines. cbn [applications formulae casks].
    split; [|split]; intros E; rewrite E; (split; [|reflexivity]);
      apply in_map_iff; eexists; (split; [reflexivity|]);
      unfold body_lines; cbn [truthy]; rewrite ?E; cbn [truthy].
    + right. now left.
    + right. apply in_or_app. right. right. right. now left.
    + right. apply in_or_app. right. right. right.
      apply in_or_app. right. right. right. now left.
  - intros content n Hin. apply parse_text_kept in Hin.
    assert (Hs : swallowed n = false).
    { unfold kept in Hin. apply andb_true_iff in Hin as [_ Hin].
      now apply negb_true_iff in Hin. }
    split; [exact Hs|].
    repeat split; intros ->; discriminate Hs.
Qed.

Lemma empty_section_sentinel_witness :
  forallb plain_name (all_names report_no_packages) = true
  /\ formulae report_no_packages = []
  /\ write_report report_no_packages
     = "### macOS Installed Applications ###" +++ nl +++ "Safari" +++ nl
       +++ nl +++ "### Homebrew Formulae ###" +++ nl
       +++ "Homebrew not found or no formulae installed." +++ nl
       +++ nl +++ "### Homebrew Casks ###" +++ nl
       +++ "Homebrew not found or no casks installed." +++ nl
  /\ formulae (parse_text (write_report report_no_packages)) = []
  /\ casks (parse_text (write_report report_no_packages)) = [].
Proof.
  split; [reflexivity|]. split; [reflexivity|].
  destruct (empty_section_sentinel report_no_packages) as (Hw & Hp & _).
  split; [exact Hw|].
  destruct (Hp eq_refl) as (_ & Hf & Hc).
  split; [exact (proj2 (Hf eq_refl)) | exact (proj2 (Hc eq_refl))].
Defined.

(** ** Traces of the install loops *)

(** Traces compared up to the bracketing of their concatenation. *)
Ltac norm_trace := repeat rewrite <- app_assoc; cbn [app].
Ltac norm_trace_in H := repeat rewrite <- app_assoc in H; cbn [app] in H.

Lemma cons_split {A} (ev x : A) (tr pre post : list A) :
  ev :: tr = pre ++ x :: post ->
  (pre = [] /\ ev = x /\ tr = post)
  \/ exists pre', pre = ev :: pre' /\ tr = pre' ++ x :: post.
Proof.
  destruct pre as [|y pre]; simpl; intros E; inversion E; subst.
  - left. repeat split.
  - right. now exists pre.
Qed.

Lemma app_split {A} (x : A) (l1 l2 pre post : list A) :
  l1 ++ l2 = pre ++ x :: post ->
  (exists m, l1 = pre ++ x :: m /\ post = m ++ l2)
  \/ (exists m, pre = l1 ++ m /\ l2 = m ++ x :: post).
Proof.
  revert pre. induction l1 as [|y l1 IH]; intros pre E; simpl in E.
  - right. now exists pre.
  - apply cons_split in E as [(-> & -> & <-) | (pre' & -> & E)].
    + left. now exists l1.
    + apply IH in E as [(m & -> & ->) | (m & -> & ->)].
      * left. now exists m.
      * right. now exists m.
Qed.

Section RestoreTraces.

(** The environment of the run. *)
Variable env : Env.

Lemma install_loop_cons (kind : string)
  (argv : string -> list string) (item : string) (rest : list string)
  (h : trace) :
  install_loop env kind argv (item :: rest) h
  = match subprocess_run env (h ++ [Print (installing_msg kind item)]) (argv item) with
    | Completed _ =>
        install_loop env kind argv rest
          (h ++ [Print (installing_msg kind item); Run (argv item)])
    | CalledProcessError e =>
        install_loop env kind argv rest
          (h ++ [Print (installing_msg kind item); Run (argv item);
                 Print (failed_msg item e)])
    | FileNotFoundError =>
        (Return, h ++ [Print (installing_msg kind item); Run (argv item);
                       Print BREW_MISSING_MSG])
    | OtherError e =>
        (Raise e, h ++ [Print (installing_msg kind item); Run (argv item)])
    end.
Proof.
  cbn [install_loop]. unfold bind, print, emit, run, return_, raise.
  destruct (subprocess_run env _ _); rewrite <- ?app_assoc; reflexivity.
Qed.

Lemma missing_free_nil (h : trace) : missing_free env h [].
Proof. intros pre a post E. now destruct pre. Qed.

Lemma missing_free_app (h l1 l2 : trace) :
  missing_free env h l1 ->
  missing_free env (h ++ l1) l2 ->
  missing_free env h (l1 ++ l2).
Proof.
  intros H1 H2 pre a post E.
  apply app_split in E as [(m & E & _) | (m & -> & E)].
  - now apply (H1 _ _ _ E).
  - rewrite app_assoc. now apply (H2 _ _ _ E).
Qed.

Lemma runs_app (l1 l2 : trace) : runs (l1 ++ l2) = runs l1 ++ runs l2.
Proof.
  induction l1 as [|ev l1 IH]; simpl; [reflexivity|].
  destruct ev; simpl; now rewrite IH.
Qed.

Lemma missing_free_no_run (h tr : trace) :
  runs tr = [] -> missing_free env h tr.
Proof.
  intros Hr pre a post ->. rewrite runs_app in Hr. simpl in Hr.
  now destruct (runs pre).
Qed.

Lemma missing_free_attempt (h : trace) (s : string)
  (a : list string) (tl : trace) :
  subprocess_run env (h ++ [Print s]) a <> FileNotFoundError ->
  runs tl = [] ->
  missing_free env h (Print s :: Run a :: tl).
Proof.
  intros Hne Htl pre b post E.
  apply cons_split in E as [(_ & E & _) | (p1 & -> & E)]; [discriminate|].
  apply cons_split in E as [(-> & E & _) | (p2 & -> & E)].
  - now injection E as <-.
  - exfalso. apply (f_equal runs) in E. rewrite Htl, runs_app in E.
    simpl in E. now destruct (runs p2).
Qed.

(** How an install loop ends: with [return] right after the process whose
    executable was missing, the error message being the last event; in every
    other case no process found its executable missing. *)
Lemma install_loop_outcome (kind : string)
  (argv : string -> list string) (items : list string) :
  forall h, exists r tr,
    install_loop env kind argv items h = (r, h ++ tr)
    /\ match r with
       | Return =>
           exists pre a,
             tr = pre ++ [Run a; Print BREW_MISSING_MSG]
             /\ missing_free env h pre
             /\ subprocess_run env (h ++ pre) a = FileNotFoundError
       | _ => missing_free env h tr
       end.
Proof.
  induction items as [|item rest IH]; intros h.
  - exists (Val tt), []. rewrite app_nil_r. split; [reflexivity|].
    apply missing_free_nil.
  - rewrite install_loop_cons.
    destruct (subprocess_run env (h ++ [Print (installing_msg kind item)])
                (argv item)) as [out|e| |e] eqn:Hrun.
    + destruct (IH (h ++ [Print (installing_msg kind item); Run (argv item)]))
        as (r & tr & E & Hr).
      exists r, ([Print (installing_msg kind item); Run (argv item)] ++ tr).
      rewrite app_assoc. split; [exact E|].
      assert (Hfree : missing_free env h
                [Print (installing_msg kind item); Run (argv item)]).
      { apply missing_free_attempt; [rewrite Hrun; discriminate | reflexivity]. }
      destruct r as [[]| |e'].
      * now apply missing_free_app.
      * destruct Hr as (pre & a & -> & Hpre & Ha).
        exists ([Print (installing_msg kind item); Run (argv item)] ++ pre), a.
        rewrite <- app_assoc. split; [reflexivity|]. split.
        -- now apply missing_free_app.
        -- now rewrite app_assoc.
      * now apply missing_free_app.
    + destruct (IH (h ++ [Print (installing_msg kind item); Run (argv item);
                          Print (failed_msg item e)]))
        as (r & tr & E & Hr).
      exists r, ([Print (installing_msg kind item); Run (argv item);
                  Print (failed_msg item e)] ++ tr).
      rewrite app_assoc. split; [exact E|].
      assert (Hfree : missing_free env h
                [Print (installing_msg kind item); Run (argv item);
                 Print (failed_msg item e)]).
      { apply missing_free_attempt; [rewrite Hrun; discriminate | reflexivity]. }
      destruct r as [[]| |e'].
      * now apply missing_free_app.
      * destruct Hr as (pre & a & -> & Hpre & Ha).
        exists ([Print (installing_msg kind item); Run (argv item);
                 Print (failed_msg item e)] ++ pre), a.
        rewrite <- app_assoc. split; [reflexivity|]. split.
        -- now apply missing_free_app.
        -- now rewrite app_assoc.
      * now apply missing_free_app.
    + exists Return, [Print (installing_msg kind item); Run (argv item);
                      Print BREW_MISSING_MSG].
      split; [reflexivity|].
      exists [Print (installing_msg kind item)], (argv item).
      split; [reflexivity|]. split; [|exact Hrun].
      now apply missing_free_no_run.
    + exists (Raise e), [Print (installing_msg kind item); Run (argv item)].
      split; [reflexivity|].
      apply missing_free_attempt; [rewrite Hrun; discriminate | reflexivity].
Qed.

Lemma missing_free_cons_print (h : trace) (s : string)
  (tr : trace) :
  missing_free env (h ++ [Print s]) tr -> missing_free env h (Print s :: tr).
Proof.
  intros H. apply (missing_free_app h [Print s] tr); [|exact H].
  now apply missing_free_no_run.
Qed.

(** One of the two [if items:] blocks with its header line and its loop. *)
Lemma install_phase_outcome (hdr kind : string)
  (argv : string -> list string) (items : list string) (h : trace) :
  exists r tr,
    (if truthy items
     then print hdr ;; install_loop env kind argv items
     else ret tt) h = (r, h ++ tr)
    /\ match r with
       | Return =>
           exists pre a,
             tr = pre ++ [Run a; Print BREW_MISSING_MSG]
             /\ missing_free env h pre
             /\ subprocess_run env (h ++ pre) a = FileNotFoundError
       | _ => missing_free env h tr
       end.
Proof.
  destruct items as [|item rest].
  - exists (Val tt), []. simpl. unfold ret. rewrite app_nil_r.
    split; [reflexivity | apply missing_free_nil].
  - cbn [truthy]. unfold bind at 1. unfold print, emit.
    destruct (install_loop_outcome kind argv (item :: rest)
                (h ++ [Print hdr])) as (r & tr & E & Hr).
    rewrite E. exists r, (Print hdr :: tr).
    split.
    { rewrite <- app_assoc. now destruct r. }
    destruct r as [[]| |e].
    + now apply missing_free_cons_print.
    + destruct Hr as (pre & a & -> & Hpre & Ha).
      exists (Print hdr :: pre), a. split; [reflexivity|]. split.
      * now apply missing_free_cons_print.
      * now rewrite <- app_assoc in Ha.
    + now apply missing_free_cons_print.
Qed.

Lemma select_items_outcome (title : string) (items : list string)
  (h : trace) :
  exists r tr,
    select_items_with_tkinter env title items h = (r, h ++ tr)
    /\ runs tr = [] /\ r <> Return.
Proof.
  unfold select_items_with_tkinter.
  destruct (negb (TKINTER_AVAILABLE env) || negb (truthy items)).
  - exists (Val items), []. unfold ret. rewrite app_nil_r.
    repeat split. discriminate.
  - destruct (checklist env h title items) as [checked| |e].
    + exists (Val (checked_items checked 0 items)), [Dialog title items].
      repeat split. discriminate.
    + exists (Val []), [Dialog title items]. repeat split. discriminate.
    + exists (Raise e), []. rewrite app_nil_r. repeat split. discriminate.
Qed.

Lemma select_stage_outcome (fs cs : list string) (h : trace) :
  exists r tr,
    select_stage env fs cs h = (r, h ++ tr)
    /\ runs tr = [] /\ r <> Return.
Proof.
  unfold select_stage. destruct (TKINTER_AVAILABLE env) eqn:Htk.
  - unfold bind at 1.
    assert (H1 : exists r tr,
               (if truthy fs
                then select_items_with_tkinter env
                       "Select Homebrew Formulae to install" fs
                else ret fs) h = (r, h ++ tr) /\ runs tr = [] /\ r <> Return).
    { destruct (truthy fs); [apply select_items_outcome|].
      exists (Val fs), []. unfold ret. rewrite app_nil_r.
      repeat split. discriminate. }
    destruct H1 as (r1 & tr1 & E1 & R1 & N1). rewrite E1.
    destruct r1 as [fs'| |e]; [| now elim N1 |].
    + unfold bind at 1.
      assert (H2 : exists r tr,
                 (if truthy cs
                  then select_items_with_tkinter env
                         "Select Homebrew Casks to install" cs
                  else ret cs) (h ++ tr1) = (r, (h ++ tr1) ++ tr)
                 /\ runs tr = [] /\ r <> Return).
      { destruct (truthy cs); [apply select_items_outcome|].
        exists (Val cs), []. unfold ret. rewrite app_nil_r.
        repeat split. discriminate. }
      destruct H2 as (r2 & tr2 & E2 & R2 & N2). rewrite E2.
      destruct r2 as [cs'| |e]; [| now elim N2 |].
      * exists (Val (fs', cs')), (tr1 ++ tr2). unfold ret.
        rewrite app_assoc, runs_app, R1, R2. repeat split. discriminate.
      * exists (Raise e), (tr1 ++ tr2).
        rewrite app_assoc, runs_app, R1, R2. repeat split. discriminate.
    + exists (Raise e), tr1. repeat split; [exact R1 | discriminate].
  - unfold bind, ret, print, emit.
    destruct (truthy fs || truthy cs).
    + exists (Val (fs, cs)), [Print NOTE_MSG]. repeat split. discriminate.
    + exists (Val (fs, cs)), []. rewrite app_nil_r. repeat split. discriminate.
Qed.

Lemma print_apps_trace (apps : list string) :
  forall h,
    print_apps apps h
    = (Val tt, h ++ map (fun app => Print ("  - " +++ app)) apps).
Proof.
  induction apps as [|app rest IH]; intros h; simpl.
  - unfold ret. now rewrite app_nil_r.
  - unfold bind, print, emit. rewrite IH. now rewrite <- app_assoc.
Qed.

Lemma manual_list_trace (apps : list string) (h : trace) :
  manual_list apps h = (Val tt, h ++ manual_events apps).
Proof.
  unfold manual_list, manual_events. destruct (truthy apps).
  - unfold bind, print, emit. rewrite print_apps_trace.
    now rewrite <- !app_assoc.
  - unfold ret. now rewrite app_nil_r.
Qed.

Lemma runs_manual_events (apps : list string) : runs (manual_events apps) = [].
Proof.
  unfold manual_events. destruct (truthy apps); [|reflexivity].
  simpl. induction apps as [|a apps IH]; [reflexivity | exact IH].
Qed.

(** The run of restore mode on an existing file: either it returned right
    after the process whose executable was missing, or no process found its
    executable missing and a run that returned went through to the manual
    list and the closing line. *)
Lemma restore_outcome (filepath content : string) (h : trace) :
  read_file env filepath = FileText content ->
  exists r tr,
    run_restore_mode env filepath h = (r, h ++ tr)
    /\ ((r = Val tt
         /\ exists pre a,
              tr = pre ++ [Run a; Print BREW_MISSING_MSG]
              /\ missing_free env h pre
              /\ subprocess_run env (h ++ pre) a = FileNotFoundError)
        \/ (missing_free env h tr
            /\ (r = Val tt ->
                exists pre,
                  tr = pre ++ manual_events (applications (parse_text content))
                           ++ [Print COMPLETE_MSG]))).
Proof.
  intros Hread. unfold run_restore_mode, def_. rewrite Hread.
  set (start := Print ("--- Parsing software list from " +++ filepath +++ " ---")).
  unfold bind at 1. unfold print at 1, emit. fold start.
  unfold bind at 1.
  destruct (select_stage_outcome (formulae (parse_text content))
              (casks (parse_text content)) (h ++ [start]))
    as (rs & trs & Es & Rs & Ns).
  rewrite Es.
  assert (F0 : missing_free env h (start :: trs)).
  { apply missing_free_no_run. exact Rs. }
  destruct rs as [[fs cs]| |e]; [| now elim Ns |].
  2:{ exists (Raise e), (start :: trs).
      split; [norm_trace; reflexivity|]. right.
      split; [exact F0 | discriminate]. }
  unfold bind at 1.
  destruct (install_phase_outcome (nl +++ "--- Installing Homebrew Formulae ---")
              "formula" formula_argv fs ((h ++ [start]) ++ trs))
    as (r1 & tr1 & E1 & H1).
  rewrite E1.
  assert (A1 : (h ++ [start]) ++ trs = h ++ start :: trs)
    by now rewrite <- app_assoc.
  rewrite A1 in H1.
  destruct r1 as [[]| |e].
  3:{ exists (Raise e), ((start :: trs) ++ tr1).
      split; [norm_trace; reflexivity|]. right.
      split; [now apply missing_free_app | discriminate]. }
  2:{ destruct H1 as (pre & a & -> & Hpre & Ha).
      exists (Val tt), ((start :: trs) ++ pre ++ [Run a; Print BREW_MISSING_MSG]).
      split; [norm_trace; reflexivity|]. left.
      split; [reflexivity|]. exists ((start :: trs) ++ pre), a.
      split; [norm_trace; reflexivity|]. split.
      - now apply missing_free_app.
      - norm_trace. norm_trace_in Ha. exact Ha. }
  assert (F1 : missing_free env h ((start :: trs) ++ tr1))
    by now apply missing_free_app.
  unfold bind at 1.
  destruct (install_phase_outcome (nl +++ "--- Installing Homebrew Casks ---")
              "cask" cask_argv cs (((h ++ [start]) ++ trs) ++ tr1))
    as (r2 & tr2 & E2 & H2).
  rewrite E2.
  assert (A2 : ((h ++ [start]) ++ trs) ++ tr1 = h ++ (start :: trs) ++ tr1)
    by now rewrite A1, <- app_assoc.
  rewrite A2 in H2.
  destruct r2 as [[]| |e].
  3:{ exists (Raise e), (((start :: trs) ++ tr1) ++ tr2).
      split; [norm_trace; reflexivity|]. right.
      split; [now apply missing_free_app | discriminate]. }
  2:{ destruct H2 as (pre & a & -> & Hpre & Ha).
      exists (Val tt),
        (((start :: trs) ++ tr1) ++ pre ++ [Run a; Print BREW_MISSING_MSG]).
      split; [norm_trace; reflexivity|]. left.
      split; [reflexivity|]. exists (((start :: trs) ++ tr1) ++ pre), a.
      split; [norm_trace; reflexivity|]. split.
      - now apply missing_free_app.
      - norm_trace. norm_trace_in Ha. exact Ha. }
  assert (F2 : missing_free env h (((start :: trs) ++ tr1) ++ tr2))
    by now apply missing_free_app.
  unfold bind at 1. rewrite manual_list_trace.
  unfold print, emit.
  exists (Val tt),
    ((((start :: trs) ++ tr1) ++ tr2)
     ++ manual_events (applications (parse_text content)) ++ [Print COMPLETE_MSG]).
  split; [norm_trace; reflexivity|].
  right. split.
  - apply missing_free_app; [exact F2|].
    apply missing_free_no_run. rewrite runs_app, runs_manual_events.
    reflexivity.
  - intros _. now exists (((start :: trs) ++ tr1) ++ tr2).
Qed.

End RestoreTraces.

(** ** Restore mode without the package manager (claim C2) *)

(** C2, as stated, fails: without [brew] the run ends on the error message
    and the application names read from the file are not echoed. *)
Lemma brew_missing_apps_not_echoed :
  (forall h argv, subprocess_run env_no_brew h argv = FileNotFoundError)
  /\ read_file env_no_brew "inventory.txt" = FileText (write_report report_sample)
  /\ applications (parse_text (write_report report_sample)) = ["Safari"; "Xcode"]
  /\ run_restore_mode env_no_brew "inventory.txt" []
     = (Val tt,
        [Print "--- Parsing software list from inventory.txt ---";
         Print NOTE_MSG;
         Print (nl +++ "--- Installing Homebrew Formulae ---");
         Print "Installing brew formula 'git'...";
         Run ["brew"; "install"; "git"];
         Print BREW_MISSING_MSG])
  /\ ~ In (Print "  - Safari")
          (snd (run_restore_mode env_no_brew "inventory.txt" [])).
Proof.
  split; [reflexivity|]. split; [reflexivity|]. split; [reflexivity|].
  split; [reflexivity|].
  intros H. vm_compute in H.
  repeat (destruct H as [H|H]; [discriminate H|]). exact H.
Qed.

(** C2, amended: when an install attempt of restore mode finds the
    package-manager executable missing, the error message is printed next
    and is the last event of the run, which returns normally: no further
    install is attempted in either category and the application names are
    not echoed.  The application names are echoed last, before the closing
    line, in a run that returns without any install attempt having found the
    executable missing. *)
Theorem restore_aborts_when_brew_missing (env : Env)
  (filepath content : string) (h h' : trace) (r : res unit) :
  read_file env filepath = FileText content ->
  run_restore_mode env filepath h = (r, h') ->
  (forall pre argv post,
      h' = h ++ pre ++ Run argv :: post ->
      subprocess_run env (h ++ pre) argv = FileNotFoundError ->
      r = Val tt /\ post = [Print BREW_MISSING_MSG])
  /\ ((forall pre argv post,
         h' = h ++ pre ++ Run argv :: post ->
         subprocess_run env (h ++ pre) argv <> FileNotFoundError) ->
      r = Val tt ->
      exists pre,
        h' = h ++ pre ++ manual_events (applications (parse_text content))
               ++ [Print COMPLETE_MSG]).
Proof.
  intros Hread Hrun.
  destruct (restore_outcome env filepath content h Hread)
    as (r0 & tr & E & Hcase).
  rewrite E in Hrun. injection Hrun as <- <-.
  split.
  - intros pre argv post Eq Hmiss. apply app_inv_head in Eq.
    destruct Hcase as [(-> & pre0 & a0 & -> & Hfree & _) | (Hfree & _)].
    + split; [reflexivity|].
      apply app_split in Eq as [(m & -> & _) | (m & -> & Eq)].
      * exfalso. now apply (Hfree pre argv m eq_refl).
      * apply cons_split in Eq as [(_ & _ & <-) | (m1 & -> & Eq)];
          [reflexivity|].
        apply cons_split in Eq as [(_ & Eq & _) | (m2 & _ & Eq)];
          [discriminate|]. now destruct m2.
    + exfalso. now apply (Hfree pre argv post Eq).
  - intros Hno Hr.
    destruct Hcase as [(_ & pre0 & a0 & -> & _ & Hmiss) | (_ & Hend)].
    + exfalso. now apply (Hno pre0 a0 [Print BREW_MISSING_MSG] eq_refl).
    + destruct (Hend Hr) as (pre & ->). now exists pre.
Qed.

Lemma restore_aborts_when_brew_missing_witness :
  (read_file env_no_brew "inventory.txt" = FileText (write_report report_sample)
   /\ run_restore_mode env_no_brew "inventory.txt" []
      = (Val tt,
         [Print "--- Parsing software list from inventory.txt ---";
          Print NOTE_MSG;
          Print (nl +++ "--- Installing Homebrew Formulae ---");
          Print "Installing brew formula 'git'...";
          Run ["brew"; "install"; "git"];
          Print BREW_MISSING_MSG])
   /\ subprocess_run env_no_brew
        [Print "--- Parsing software list from inventory.txt ---";
         Print NOTE_MSG;
         Print (nl +++ "--- Installing Homebrew Formulae ---");
         Print "Installing brew formula 'git'..."]
        ["brew"; "install"; "git"] = FileNotFoundError)
  /\ (@Val unit tt = Val tt
      /\ [Print BREW_MISSING_MSG] = [Print BREW_MISSING_MSG]).
Proof.
  split; [repeat split|].
  exact (proj1 (restore_aborts_when_brew_missing env_no_brew "inventory.txt"
                  (write_report report_sample) []
                  [Print "--- Parsing software list from inventory.txt ---";
                   Print NOTE_MSG;
                   Print (nl +++ "--- Installing Homebrew Formulae ---");
                   Print "Installing brew formula 'git'...";
                   Run ["brew"; "install"; "git"];
                   Print BREW_MISSING_MSG]
                  (Val tt) eq_refl eq_refl)
           [Print "--- Parsing software list from inventory.txt ---";
            Print NOTE_MSG;
            Print (nl +++ "--- Installing Homebrew Formulae ---");
            Print "Installing brew formula 'git'..."]
           ["brew"; "install"; "git"]
           [Print BREW_MISSING_MSG] eq_refl eq_refl).
Defined.

(** ** Best-effort batches: the loop *)

(** The install loop on its own (formulae or casks): where no install finds
    the tool missing or raises anything but a non-zero exit, the loop runs to
    its end, every item of the list is attempted, once and in order, and each
    install that exits non-zero is followed by the line reporting that item
    as failed. *)
Theorem install_loop_best_effort (env : Env) (kind : string)
  (argv : string -> list string) (items : list string) :
  (forall h a, subprocess_run env h a <> FileNotFoundError) ->
  (forall h a e, subprocess_run env h a <> OtherError e) ->
  forall h, exists tr,
    install_loop env kind argv items h = (Val tt, h ++ tr)
    /\ runs tr = map argv items
    /\ forall pre a post e,
         tr = pre ++ Run a :: post ->
         subprocess_run env (h ++ pre) a = CalledProcessError e ->
         exists item post',
           In item items /\ a = argv item
           /\ post = Print (failed_msg item e) :: post'.
Proof.
  intros Hfound Hcaught.
  induction items as [|item rest IH]; intros h.
  - exists []. rewrite app_nil_r. repeat split.
    intros pre a post e E. now destruct pre.
  - rewrite install_loop_cons.
    destruct (subprocess_run env (h ++ [Print (installing_msg kind item)])
                (argv item)) as [out|e0| |e0] eqn:Hrun.
    + destruct (IH (h ++ [Print (installing_msg kind item); Run (argv item)]))
        as (tr & E & Hruns & Hlog).
      exists (Print (installing_msg kind item) :: Run (argv item) :: tr).
      split; [rewrite E; norm_trace; reflexivity|].
      split; [simpl; now rewrite Hruns|].
      intros pre a post e Eq Hfail.
      apply cons_split in Eq as [(_ & Eq & _) | (p1 & -> & Eq)];
        [discriminate|].
      apply cons_split in Eq as [(-> & Eq & _) | (p2 & -> & Eq)].
      * injection Eq as <-. rewrite Hrun in Hfail. discriminate.
      * norm_trace_in Hfail.
        destruct (Hlog p2 a post e Eq) as (it & post' & Hin & Ha & Hp).
        { norm_trace. exact Hfail. }
        exists it, post'. repeat split; [now right | exact Ha | exact Hp].
    + destruct (IH (h ++ [Print (installing_msg kind item); Run (argv item);
                          Print (failed_msg item e0)]))
        as (tr & E & Hruns & Hlog).
      exists (Print (installing_msg kind item) :: Run (argv item)
              :: Print (failed_msg item e0) :: tr).
      split; [rewrite E; norm_trace; reflexivity|].
      split; [simpl; now rewrite Hruns|].
      intros pre a post e Eq Hfail.
      apply cons_split in Eq as [(_ & Eq & _) | (p1 & -> & Eq)];
        [discriminate|].
      apply cons_split in Eq as [(-> & Eq & <-) | (p2 & -> & Eq)].
      * injection Eq as <-. rewrite Hrun in Hfail. injection Hfail as <-.
        exists item, tr. repeat split. now left.
      * apply cons_split in Eq as [(_ & Eq & _) | (p3 & -> & Eq)];
          [discriminate|].
        norm_trace_in Hfail.
        destruct (Hlog p3 a post e Eq) as (it & post' & Hin & Ha & Hp).
        { norm_trace. exact Hfail. }
        exists it, post'. repeat split; [now right | exact Ha | exact Hp].
    + now elim (Hfound _ _ Hrun).
    + now elim (Hcaught _ _ _ Hrun).
Qed.

Lemma install_loop_best_effort_witness :
  (forall h a, subprocess_run env_b_fails h a <> FileNotFoundError)
  /\ (forall h a e, subprocess_run env_b_fails h a <> OtherError e)
  /\ exists tr,
       install_loop env_b_fails "formula" formula_argv ["a"; "b"; "c"] []
       = (Val tt, [] ++ tr)
       /\ runs tr
          = [["brew"; "install"; "a"]; ["brew"; "install"; "b"];
             ["brew"; "install"; "c"]]
       /\ forall pre a post e,
            tr = pre ++ Run a :: post ->
            subprocess_run env_b_fails ([] ++ pre) a = CalledProcessError e ->
            exists item post',
              In item ["a"; "b"; "c"] /\ a = formula_argv item
              /\ post = Print (failed_msg item e) :: post'.
Proof.
  assert (Hfound : forall (h : trace) a,
             subprocess_run env_b_fails h a <> FileNotFoundError).
  { intros h a. simpl. destruct (argv_eqb a (formula_argv "b")); discriminate. }
  assert (Hcaught : forall (h : trace) a e,
             subprocess_run env_b_fails h a <> OtherError e).
  { intros h a e. simpl. destruct (argv_eqb a (formula_argv "b")); discriminate. }
  split; [exact Hfound|]. split; [exact Hcaught|].
  exact (install_loop_best_effort env_b_fails "formula" formula_argv
           ["a"; "b"; "c"] Hfound Hcaught []).
Defined.

(** The batch of the specification: "b" fails, "c" is still installed. *)
Example batch_a_b_c :
  install_loop env_b_fails "formula" formula_argv ["a"; "b"; "c"] []
  = (Val tt,
     [Print "Installing brew formula 'a'..."; Run ["brew"; "install"; "a"];
      Print "Installing brew formula 'b'..."; Run ["brew"; "install"; "b"];
      Print ("  > Failed to install 'b': " +++ STATUS_1 +++ ". Continuing...");
      Print "Installing brew formula 'c'..."; Run ["brew"; "install"; "c"]]).
Proof. reflexivity. Qed.

(** ** Missing file, fail-open selection, failed listing (claims C4, C6, C8) *)

(** C4: when the path is not a regular file, restore mode prints the
    file-not-found message and returns; the message is the only event of the
    run, so nothing is installed, asked or written. *)
Theorem restore_missing_file (env : Env) (filepath : string) (h : trace) :
  read_file env filepath = NotAFile ->
  run_restore_mode env filepath h
  = (Val tt, h ++ [Print ("Error: File not found at '" +++ filepath +++ "'")])
  /\ runs (snd (run_restore_mode env filepath [])) = [].
Proof.
  intros Hread. unfold run_restore_mode, def_, bind, print, emit, return_.
  rewrite Hread. split; reflexivity.
Qed.

Lemma restore_missing_file_witness :
  read_file env_bare "/nonexistent/path" = NotAFile
  /\ run_restore_mode env_bare "/nonexistent/path" []
     = (Val tt, [Print "Error: File not found at '/nonexistent/path'"]).
Proof.
  split; [reflexivity|].
  exact (proj1 (restore_missing_file env_bare "/nonexistent/path" [] eq_refl)).
Defined.

(** C6: without Tkinter, or on an empty list, the selection gate returns its
    candidates as they are and does nothing else. *)
Theorem select_fail_open (env : Env) (title : string) (L : list string)
  (h : trace) :
  TKINTER_AVAILABLE env = false \/ L = [] ->
  select_items_with_tkinter env title L h = (Val L, h).
Proof.
  intros [Htk | ->]; unfold select_items_with_tkinter.
  - now rewrite Htk.
  - now rewrite orb_true_r.
Qed.

Lemma select_fail_open_witness :
  (TKINTER_AVAILABLE env_bare = false \/ ["wget"; "git"; "wget"] = [])
  /\ select_items_with_tkinter env_bare "Select Homebrew Formulae to install"
       ["wget"; "git"; "wget"] []
     = (Val ["wget"; "git"; "wget"], []).
Proof.
  split; [left; reflexivity|].
  exact (select_fail_open env_bare "Select Homebrew Formulae to install"
           ["wget"; "git"; "wget"] [] (or_introl eq_refl)).
Defined.

(** C8: when the listing command of a category fails, because the tool is
    absent or because it exits non-zero, the collector returns the empty
    list for that category; and when both listings fail, index mode goes on
    to write the report, with both categories empty. *)
Theorem failed_listing_gives_empty (env : Env) (h : trace) :
  (listing_failed (subprocess_run env h ["brew"; "list"; "--formula"]) ->
   get_brew_packages env h = (Val [], h ++ [Run ["brew"; "list"; "--formula"]]))
  /\ (listing_failed (subprocess_run env h ["brew"; "list"; "--cask"]) ->
      get_brew_casks env h = (Val [], h ++ [Run ["brew"; "list"; "--cask"]]))
  /\ (listing_failed (subprocess_run env h ["brew"; "list"; "--formula"]) ->
      listing_failed
        (subprocess_run env (h ++ [Run ["brew"; "list"; "--formula"]])
           ["brew"; "list"; "--cask"]) ->
      write_error env (report_filename env) = None ->
      run_index_mode env h
      = (Val tt,
         h ++ [Run ["brew"; "list"; "--formula"];
               Run ["brew"; "list"; "--cask"];
               WriteFile (report_filename env)
                 (write_report (mkReport (get_installed_apps env) [] []));
               Print ("Report saved to: " +++ report_filename env)])).
Proof.
  assert (Hlist : forall flag h0,
             listing_failed (subprocess_run env h0 ["brew"; "list"; flag]) ->
             brew_list env flag h0 = (Val [], h0 ++ [Run ["brew"; "list"; flag]])).
  { intros flag h0 [E | [e E]]; unfold brew_list, bind, run, ret;
      now rewrite E. }
  split; [apply Hlist|]. split; [apply Hlist|].
  intros Hf Hc Hw.
  unfold run_index_mode, def_, get_brew_packages, get_brew_casks.
  unfold bind at 1. rewrite (Hlist _ _ Hf).
  unfold bind at 1. rewrite (Hlist _ _ Hc).
  unfold write_file. rewrite Hw. unfold bind, emit, print, emit.
  norm_trace. reflexivity.
Qed.

Lemma failed_listing_gives_empty_witness :
  (listing_failed (subprocess_run env_bare [] ["brew"; "list"; "--formula"])
   /\ listing_failed
        (subprocess_run env_bare [Run ["brew"; "list"; "--formula"]]
           ["brew"; "list"; "--cask"])
   /\ write_error env_bare (report_filename env_bare) = None)
  /\ get_brew_packages env_bare []
     = (Val [], [Run ["brew"; "list"; "--formula"]])
  /\ get_brew_casks env_bare [] = (Val [], [Run ["brew"; "list"; "--cask"]])
  /\ run_index_mode env_bare []
     = (Val tt,
        [Run ["brew"; "list"; "--formula"]; Run ["brew"; "list"; "--cask"];
         WriteFile "macos_installed_software_2024-05-01_09-30-00.txt"
           (write_report (mkReport [] [] []));
         Print "Report saved to: macos_installed_software_2024-05-01_09-30-00.txt"]).
Proof.
  assert (Hmissing : forall h argv,
             listing_failed (subprocess_run env_bare h argv))
    by (intros h argv; left; reflexivity).
  split; [repeat split; apply Hmissing|].
  destruct (failed_listing_gives_empty env_bare []) as (Hf & Hc & Hidx).
  split; [exact (Hf (Hmissing _ _))|].
  split; [exact (Hc (Hmissing _ _))|].
  exact (Hidx (Hmissing _ _) (Hmissing _ _) eq_refl).
Defined.

(** ** The end-to-end example and the empty listing (claims C9, C10) *)

(** C9: the artifact of the example parses to the formulae "wget" and "git",
    no cask and no application. *)
Theorem parse_artifact_example :
  artifact_example
  = "### Homebrew Formulae ###" +++ nl +++ "wget" +++ nl +++ "git" +++ nl
    +++ nl +++ "### Homebrew Casks ###" +++ nl +++ "No Homebrew... " +++ nl
  /\ parse_text artifact_example = mkReport [] ["wget"; "git"] [].
Proof. split; reflexivity. Qed.

(** C10, as stated, fails in its last part: with an application bundle
    named like the formulae header, a listing that succeeds with an empty
    output gives the list holding the empty string, written as one blank
    line, but the formulae read back from the report are not empty. *)
Lemma empty_listing_section_filled :
  subprocess_run env_header_bundle [] ["brew"; "list"; "--formula"]
  = Completed EmptyString
  /\ get_brew_packages env_header_bundle []
     = (Val [EmptyString], [Run ["brew"; "list"; "--formula"]])
  /\ run_index_mode env_header_bundle []
     = (Val tt,
        [Run ["brew"; "list"; "--formula"]; Run ["brew"; "list"; "--cask"];
         WriteFile "macos_installed_software_2024-05-01_09-30-00.txt"
           ("### macOS Installed Applications ###" +++ nl
            +++ "### Homebrew Formulae ###" +++ nl +++ "zoom" +++ nl
            +++ nl +++ "### Homebrew Formulae ###" +++ nl +++ nl
            +++ nl +++ "### Homebrew Casks ###" +++ nl +++ nl);
         Print "Report saved to: macos_installed_software_2024-05-01_09-30-00.txt"])
  /\ formulae
       (parse_text
          ("### macOS Installed Applications ###" +++ nl
           +++ "### Homebrew Formulae ###" +++ nl +++ "zoom" +++ nl
           +++ nl +++ "### Homebrew Formulae ###" +++ nl +++ nl
           +++ nl +++ "### Homebrew Casks ###" +++ nl +++ nl))
     = ["zoom"].
Proof. repeat split. Qed.

(** C10, amended: a listing that succeeds with an empty output (or one of
    white space only) makes the collector return the list holding the empty
    string; index mode then writes, under the header of that category, one
    blank line and not the sentinel line; and when no other name of the
    report holds a line terminator or begins, once trimmed, with "###", the
    parser, which skips blank lines, reads that category back empty. *)
Theorem empty_listing_blank_line (env : Env) (h : trace) (stdout : string) :
  strip stdout = EmptyString ->
  (subprocess_run env h ["brew"; "list"; "--formula"] = Completed stdout ->
   get_brew_packages env h
   = (Val [EmptyString], h ++ [Run ["brew"; "list"; "--formula"]])
   /\ forall cs h2,
        get_brew_casks env (h ++ [Run ["brew"; "list"; "--formula"]])
        = (Val cs, h2) ->
        write_error env (report_filename env) = None ->
        exists content,
          run_index_mode env h
          = (Val tt,
             h2 ++ [WriteFile (report_filename env) content;
                    Print ("Report saved to: " +++ report_filename env)])
          /\ content
             = "### macOS Installed Applications ###" +++ nl
               +++ write_body (get_installed_apps env) APPS_SENTINEL
               +++ nl +++ "### Homebrew Formulae ###" +++ nl
               +++ nl
               +++ nl +++ "### Homebrew Casks ###" +++ nl
               +++ write_body cs CASKS_SENTINEL
          /\ (forallb plain_name (get_installed_apps env ++ cs) = true ->
              formulae (parse_text content) = []))
  /\ (forall fs h1,
        get_brew_packages env h = (Val fs, h1) ->
        subprocess_run env h1 ["brew"; "list"; "--cask"] = Completed stdout ->
        get_brew_casks env h1
        = (Val [EmptyString], h1 ++ [Run ["brew"; "list"; "--cask"]])
        /\ (write_error env (report_filename env) = None ->
            exists content,
              run_index_mode env h
              = (Val tt,
                 h1 ++ [Run ["brew"; "list"; "--cask"];
                        WriteFile (report_filename env) content;
                        Print ("Report saved to: " +++ report_filename env)])
              /\ content
                 = "### macOS Installed Applications ###" +++ nl
                   +++ write_body (get_installed_apps env) APPS_SENTINEL
                   +++ nl +++ "### Homebrew Formulae ###" +++ nl
                   +++ write_body fs FORMULAE_SENTINEL
                   +++ nl +++ "### Homebrew Casks ###" +++ nl
                   +++ nl
              /\ (forallb plain_name (get_installed_apps env ++ fs) = true ->
                  casks (parse_text content) = []))).
Proof.
  intros Hstrip.
  assert (Hlist : forall flag h0,
             subprocess_run env h0 ["brew"; "list"; flag] = Completed stdout ->
             brew_list env flag h0
             = (Val [EmptyString], h0 ++ [Run ["brew"; "list"; flag]])).
  { intros flag h0 E. unfold brew_list, bind, run, ret.
    rewrite E, Hstrip. reflexivity. }
  split.
  - intros E. split; [exact (Hlist _ _ E)|].
    intros cs h2 Ec Hw.
    exists (write_report (mkReport (get_installed_apps env) [EmptyString] cs)).
    split; [|split].
    + unfold run_index_mode, def_.
      unfold bind at 1. unfold get_brew_packages. rewrite (Hlist _ _ E).
      unfold bind at 1. rewrite Ec.
      unfold write_file. rewrite Hw. unfold bind, emit, print, emit.
      norm_trace. reflexivity.
    + unfold write_report, write_body. cbn [applications formulae casks truthy].
      cbn [write_items]. repeat rewrite append_assoc. reflexivity.
    + intros Hplain. rewrite parse_write_plain; [reflexivity|].
      unfold all_names. cbn [applications formulae casks].
      apply forallb_app_true in Hplain as [Ha Hc].
      rewrite !forallb_app, Ha, Hc. reflexivity.
  - intros fs h1 Ef E. split; [exact (Hlist _ _ E)|].
    intros Hw.
    exists (write_report (mkReport (get_installed_apps env) fs [EmptyString])).
    split; [|split].
    + unfold run_index_mode, def_.
      unfold bind at 1. rewrite Ef.
      unfold bind at 1. unfold get_brew_casks. rewrite (Hlist _ _ E).
      unfold write_file. rewrite Hw. unfold bind, emit, print, emit.
      norm_trace. reflexivity.
    + unfold write_report, write_body. cbn [applications formulae casks truthy].
      cbn [write_items]. repeat rewrite append_assoc. reflexivity.
    + intros Hplain. rewrite parse_write_plain; [reflexivity|].
      unfold all_names. cbn [applications formulae casks].
      apply forallb_app_true in Hplain as [Ha Hf].
      rewrite !forallb_app, Ha, Hf. reflexivity.
Qed.

Lemma empty_listing_blank_line_witness :
  (strip EmptyString = EmptyString
   /\ subprocess_run env_empty_brew [] ["brew"; "list"; "--formula"]
      = Completed EmptyString
   /\ get_brew_casks env_empty_brew [Run ["brew"; "list"; "--formula"]]
      = (Val [EmptyString],
         [Run ["brew"; "list"; "--formula"]; Run ["brew"; "list"; "--cask"]])
   /\ write_error env_empty_brew (report_filename env_empty_brew) = None
   /\ forallb plain_name (get_installed_apps env_empty_brew ++ [EmptyString])
      = true)
  /\ get_brew_packages env_empty_brew []
     = (Val [EmptyString], [] ++ [Run ["brew"; "list"; "--formula"]])
  /\ exists content,
       run_index_mode env_empty_brew []
       = (Val tt,
          [Run ["brew"; "list"; "--formula"]; Run ["brew"; "list"; "--cask"]]
          ++ [WriteFile (report_filename env_empty_brew) content;
              Print ("Report saved to: " +++ report_filename env_empty_brew)])
       /\ content
          = "### macOS Installed Applications ###" +++ nl
            +++ write_body (get_installed_apps env_empty_brew) APPS_SENTINEL
            +++ nl +++ "### Homebrew Formulae ###" +++ nl
            +++ nl
            +++ nl +++ "### Homebrew Casks ###" +++ nl
            +++ write_body [EmptyString] CASKS_SENTINEL
       /\ formulae (parse_text content) = [].
Proof.
  split; [repeat split|].
  destruct (proj1 (empty_listing_blank_line env_empty_brew [] EmptyString
                     eq_refl) eq_refl) as (Hg & Hidx).
  split; [exact Hg|].
  destruct (Hidx [EmptyString] _ eq_refl eq_refl) as (content & Hrun & Hc & Hp).
  exists content. split; [exact Hrun|]. split; [exact Hc|].
  apply Hp. reflexivity.
Defined.

(** ** Application names (claim C3) *)

Lemma prefix_app_extended (c : ascii) (s : string) :
  String.prefix ".app" (String c s) = false ->
  String.prefix ".app" (String c s +++ ".app") = false.
Proof.
  cbn [String.prefix String.append].
  destruct (ascii_dec "." c) as [<-|]; [|reflexivity].
  destruct s as [|c2 s]; [reflexivity|]. cbn [String.prefix String.append].
  destruct (ascii_dec "a" c2) as [<-|]; [|reflexivity].
  destruct s as [|c3 s]; [reflexivity|]. cbn [String.prefix String.append].
  destruct (ascii_dec "p" c3) as [<-|]; [|reflexivity].
  destruct s as [|c4 s]; [reflexivity|]. cbn [String.prefix String.append].
  destruct (ascii_dec "p" c4) as [<-|]; [|reflexivity].
  destruct s; discriminate.
Qed.

(** Where the name before the suffix holds no ".app", [replace] removes the
    suffix and nothing else. *)
Lemma replace_suffix_only (base : string) :
  contains ".app" base = false ->
  replace (base +++ ".app") ".app" "" = base.
Proof.
  unfold replace. induction base as [|c base IH]; intros H.
  - reflexivity.
  - cbn [contains] in H. apply orb_false_iff in H as [Hp Hc].
    cbn [String.append replace_from].
    change (String c (base +++ ".app")) with (String c base +++ ".app").
    rewrite (prefix_app_extended _ _ Hp). now rewrite (IH Hc).
Qed.

(** C3 fails on the code: [replace] removes every ".app" of the entry name,
    not only the suffix.  The bundle "Editor.app.backup.app" is collected as
    "Editor.backup", where the claim gives "Editor.app.backup". *)
Theorem app_name_loses_interior_app :
  endswith "Editor.app.backup.app" ".app" = true
  /\ replace "Editor.app.backup.app" ".app" "" = "Editor.backup"
  /\ "Editor.backup" <> "Editor.app.backup"
  /\ get_installed_apps env_backup_bundle = ["Editor.backup"; "Safari"].
Proof. repeat split. discriminate. Qed.

(** ** The collected application names *)

Lemma ascii_compare_refl (c : ascii) : Ascii.compare c c = Eq.
Proof. unfold Ascii.compare. apply N.compare_refl. Qed.

Lemma string_compare_trans (a : string) :
  forall b c,
    String.compare a b <> Gt -> String.compare b c <> Gt ->
    String.compare a c <> Gt.
Proof.
  induction a as [|c1 a IH]; intros [|c2 b] [|c3 c]; simpl;
    try congruence.
  destruct (Ascii.compare c1 c2) eqn:E12; [| |congruence];
    destruct (Ascii.compare c2 c3) eqn:E23; try congruence.
  - apply Ascii.compare_eq_iff in E12, E23. subst.
    rewrite ascii_compare_refl. apply IH.
  - apply Ascii.compare_eq_iff in E12. subst. rewrite E23. congruence.
  - apply Ascii.compare_eq_iff in E23. subst. rewrite E12. congruence.
  - intros _ _. unfold Ascii.compare in *.
    apply N.compare_lt_iff in E12, E23.
    assert (H : (N_of_ascii c1 ?= N_of_ascii c3)%N = Lt)
      by (apply N.compare_lt_iff; eapply N.lt_trans; eassumption).
    rewrite H. congruence.
Qed.

Lemma str_le_trans (a b c : string) : str_le a b -> str_le b c -> str_le a c.
Proof.
  unfold str_le, String.leb. intros Hab Hbc.
  pose proof (string_compare_trans a b c) as H.
  destruct (String.compare a b); destruct (String.compare b c);
    destruct (String.compare a c); try reflexivity; try discriminate;
    exfalso; apply H; congruence.
Qed.

Lemma insert_sorted_perm (x : string) (l : list string) :
  Permutation (insert_sorted x l) (x :: l).
Proof.
  induction l as [|y l IH]; simpl; [reflexivity|].
  destruct (String.leb x y); [reflexivity|].
  rewrite IH. apply perm_swap.
Qed.

Lemma sorted_perm (l : list string) : Permutation (sorted l) l.
Proof.
  induction l as [|x l IH]; simpl; [reflexivity|].
  unfold sorted in *. simpl. rewrite insert_sorted_perm. now constructor.
Qed.

Lemma insert_sorted_Sorted (x : string) (l : list string) :
  Sorted str_le l -> Sorted str_le (insert_sorted x l).
Proof.
  induction l as [|y l IH]; intros Hs; simpl.
  - repeat constructor.
  - destruct (String.leb x y) eqn:Hxy.
    + constructor; [exact Hs | constructor; exact Hxy].
    + inversion Hs as [|? ? Hl Hhd]; subst.
      assert (Hyx : str_le y x).
      { destruct (String.leb_total x y) as [H|H]; [congruence | exact H]. }
      constructor; [now apply IH|].
      destruct l as [|z l]; simpl.
      * constructor. exact Hyx.
      * destruct (String.leb x z); constructor; [exact Hyx|].
        now inversion Hhd.
Qed.

Lemma sorted_Sorted (l : list string) : Sorted str_le (sorted l).
Proof.
  induction l as [|x l IH]; [constructor|].
  unfold sorted in *. simpl. now apply insert_sorted_Sorted.
Qed.

Lemma sorted_StronglySorted (l : list string) :
  StronglySorted str_le (sorted l).
Proof.
  apply Sorted_StronglySorted; [|apply sorted_Sorted].
  intros a b c. apply str_le_trans.
Qed.

Lemma In_sorted_set (l : list string) (n : string) :
  In n (sorted (set_list l)) <-> In n l.
Proof.
  unfold set_list. rewrite <- (nodup_In string_dec l n).
  split; apply Permutation_in;
    [apply sorted_perm | symmetry; apply sorted_perm].
Qed.

Lemma NoDup_sorted_set (l : list string) : NoDup (sorted (set_list l)).
Proof.
  apply (Permutation_NoDup (l := set_list l)).
  - symmetry. apply sorted_perm.
  - apply NoDup_nodup.
Qed.

(** Two duplicate-free sorted lists with the same elements are equal. *)
Lemma sorted_set_unique (l1 : list string) :
  forall l2,
    StronglySorted str_le l1 -> StronglySorted str_le l2 ->
    NoDup l1 -> NoDup l2 ->
    (forall n, In n l1 <-> In n l2) ->
    l1 = l2.
Proof.
  induction l1 as [|x l1 IH]; intros [|y l2] S1 S2 N1 N2 Hin.
  - reflexivity.
  - exfalso. apply (proj2 (Hin y)). now left.
  - exfalso. apply (proj1 (Hin x)). now left.
  - inversion S1 as [|? ? S1' A1]; inversion S2 as [|? ? S2' A2]; subst.
    inversion N1 as [|? ? X1 N1']; inversion N2 as [|? ? Y2 N2']; subst.
    assert (Exy : x = y).
    { destruct (proj1 (Hin x) (or_introl eq_refl)) as [E|Hx]; [now symmetry|].
      destruct (proj2 (Hin y) (or_introl eq_refl)) as [E|Hy]; [exact E|].
      apply String.leb_antisym.
      - exact (proj1 (Forall_forall _ _) A1 y Hy).
      - exact (proj1 (Forall_forall _ _) A2 x Hx). }
    subst y. f_equal. apply IH; try assumption.
    intros n. split; intros Hn.
    + destruct (proj1 (Hin n) (or_intror Hn)) as [E|H]; [|exact H].
      subst n. contradiction.
    + destruct (proj2 (Hin n) (or_intror Hn)) as [E|H]; [|exact H].
      subst n. contradiction.
Qed.

(** The names gathered before [sorted(list(set(apps)))]. *)
Lemma In_found_apps (env : Env) (n : string) :
  In n (get_installed_apps env)
  <-> exists app_dir entries app,
        In app_dir (app_dirs env)
        /\ listdir env app_dir = Some entries
        /\ In app entries
        /\ endswith app ".app" = true
        /\ n = replace app ".app" "".
Proof.
  unfold get_installed_apps. cbv zeta. rewrite In_sorted_set, in_flat_map.
  split.
  - intros (d & Hd & Hn). destruct (listdir env d) as [entries|] eqn:El;
      [|contradiction].
    apply in_map_iff in Hn as (app & <- & Happ).
    apply filter_In in Happ as [Happ Hend].
    now exists d, entries, app.
  - intros (d & entries & app & Hd & El & Happ & Hend & ->).
    exists d. split; [exact Hd|]. rewrite El.
    apply in_map_iff. exists app. split; [reflexivity|].
    now apply filter_In.
Qed.

Lemma apps_sorted_nodup (env : Env) :
  StronglySorted str_le (get_installed_apps env)
  /\ NoDup (get_installed_apps env).
Proof.
  unfold get_installed_apps. cbv zeta.
  split; [apply sorted_StronglySorted | apply NoDup_sorted_set].
Qed.

(** The application list of a report is sorted in code-point order and holds
    no name twice. *)
Theorem installed_apps_sorted_unique (env : Env) :
  StronglySorted str_le (get_installed_apps env)
  /\ NoDup (get_installed_apps env).
Proof. apply apps_sorted_nodup. Qed.

(** A name is collected exactly when one of the two scanned directories
    exists and lists an entry ending in ".app" of which the name is what
    [replace] leaves; a directory that does not exist gives nothing. *)
Theorem installed_apps_from_bundles (env : Env) (n : string) :
  In n (get_installed_apps env)
  <-> exists app_dir entries app,
        (app_dir = "/Applications"
         \/ app_dir = expanduser env "~/Applications")
        /\ listdir env app_dir = Some entries
        /\ In app entries
        /\ endswith app ".app" = true
        /\ n = replace app ".app" "".
Proof.
  rewrite In_found_apps. unfold app_dirs.
  split; intros (d & entries & app & Hd & H); exists d, entries, app;
    (split; [|exact H]); simpl in *; intuition.
Qed.

(** The collected list does not depend on the order in which the system
    lists the entries of the two directories, nor on repetitions. *)
Theorem installed_apps_listing_order (env env' : Env) :
  expanduser env "~/Applications" = expanduser env' "~/Applications" ->
  (forall d, same_entries (listdir env d) (listdir env' d)) ->
  get_installed_apps env = get_installed_apps env'.
Proof.
  intros Hhome Hsame.
  apply sorted_set_unique; try apply apps_sorted_nodup.
  assert (Hdir : forall e e' : Env,
             expanduser e "~/Applications" = expanduser e' "~/Applications" ->
             (forall d, same_entries (listdir e d) (listdir e' d)) ->
             forall n, In n (get_installed_apps e) ->
                       In n (get_installed_apps e')).
  { intros e e' Hh Hs n Hn.
    apply In_found_apps in Hn as (d & entries & app & Hd & El & Happ & Hend & ->).
    apply In_found_apps. specialize (Hs d). rewrite El in Hs.
    destruct (listdir e' d) as [entries'|] eqn:El'; [|contradiction].
    exists d, entries', app. repeat split; try assumption.
    - unfold app_dirs in *. now rewrite <- Hh.
    - now apply Hs. }
  intros n. split; apply Hdir; try assumption; try (now symmetry).
  intros d. specialize (Hsame d). unfold same_entries in *.
  destruct (listdir env d), (listdir env' d); try assumption.
  intros e. symmetry. apply Hsame.
Qed.

Lemma installed_apps_listing_order_witness :
  (expanduser env_listing_a "~/Applications"
   = expanduser env_listing_b "~/Applications"
   /\ forall d, same_entries (listdir env_listing_a d) (listdir env_listing_b d))
  /\ get_installed_apps env_listing_a = ["Safari"; "Xcode"; "iTerm"]
  /\ get_installed_apps env_listing_a = get_installed_apps env_listing_b.
Proof.
  assert (Hsame : forall d,
             same_entries (listdir env_listing_a d) (listdir env_listing_b d)).
  { intros d. simpl.
    destruct (String.eqb d "/Applications"); [intros e; simpl; tauto|].
    destruct (String.eqb d "/Users/me/Applications");
      [intros e; simpl; tauto | exact I]. }
  split; [split; [reflexivity | exact Hsame]|].
  split; [reflexivity|].
  exact (installed_apps_listing_order env_listing_a env_listing_b
           eq_refl Hsame).
Defined.

(** ** Successful listings *)

Lemma write_items_split_from (s : string) :
  forall cur, write_items (split_nl_from cur s) = cur +++ s +++ nl.
Proof.
  induction s as [|c s IH]; intros cur; simpl.
  - now rewrite append_nil_r.
  - destruct (Ascii.eqb c LF) eqn:Hc.
    + apply Ascii.eqb_eq in Hc. subst c. simpl. rewrite IH.
      now rewrite append_assoc.
    + rewrite IH. now rewrite append_assoc.
Qed.

Lemma split_nl_truthy (s : string) : truthy (split_nl s) = true.
Proof.
  unfold split_nl. generalize EmptyString.
  induction s as [|c s IH]; intros cur; simpl; [reflexivity|].
  destruct (Ascii.eqb c LF); [reflexivity | apply IH].
Qed.

Lemma brew_list_completed (env : Env) (flag stdout sentinel : string)
  (h : trace) :
  subprocess_run env h ["brew"; "list"; flag] = Completed stdout ->
  brew_list env flag h
  = (Val (split_nl (strip stdout)), h ++ [Run ["brew"; "list"; flag]])
  /\ write_body (split_nl (strip stdout)) sentinel = strip stdout +++ nl.
Proof.
  intros E. split.
  - unfold brew_list, bind, run, ret. now rewrite E.
  - unfold write_body. rewrite split_nl_truthy.
    unfold split_nl. now rewrite write_items_split_from.
Qed.


(** ** What the parser returns *)

Lemma rstrip_idem (s : string) : rstrip (rstrip s) = rstrip s.
Proof.
  induction s as [|c s IH]; [reflexivity|]. simpl.
  destruct (isspace c && is_empty (rstrip s)) eqn:E; [reflexivity|].
  simpl. now rewrite IH, E.
Qed.

Lemma lstrip_head (s : string) :
  lstrip s = EmptyString
  \/ exists c t, lstrip s = String c t /\ isspace c = false.
Proof.
  induction s as [|c s IH]; [now left|]. simpl.
  destruct (isspace c) eqn:E; [exact IH|].
  right. now exists c, s.
Qed.

Lemma strip_idem (s : string) : strip (strip s) = strip s.
Proof.
  unfold strip.
  destruct (lstrip_head s) as [-> | (c & t & -> & Hc)]; [reflexivity|].
  cbn [rstrip]. rewrite Hc. cbn [andb lstrip]. rewrite Hc.
  cbn [rstrip]. rewrite rstrip_idem, Hc. reflexivity.
Qed.

Lemma parse_line_names (P : string -> Prop) (st : ParseState) (raw : string) :
  (forall n, In n (state_names st) -> P n) ->
  (is_empty (strip raw) = false ->
   startswith (strip raw) "###" = false ->
   swallowed (strip raw) = false -> P (strip raw)) ->
  forall n, In n (state_names (parse_line st raw)) -> P n.
Proof.
  intros Hst Hraw. unfold parse_line.
  destruct (is_empty (strip raw)) eqn:He; [exact Hst|].
  destruct (startswith (strip raw) "###") eqn:Hh.
  - repeat match goal with |- context [if ?b then _ else _] => destruct b end;
      exact Hst.
  - destruct (current_section st) as [t|]; [|exact Hst].
    destruct (negb (startswith (strip raw) "No ")
              && negb (startswith (strip raw) "Homebrew not found")) eqn:Hk;
      [|exact Hst].
    assert (Hs : swallowed (strip raw) = false).
    { unfold swallowed. apply negb_true_iff. now rewrite negb_orb. }
    specialize (Hraw eq_refl eq_refl Hs).
    intros n Hn. unfold state_names in *.
    destruct t; simpl in Hn; rewrite ?in_app_iff in Hn; simpl in Hn;
      (assert (Hor : In n (apps st ++ p_formulae st ++ p_casks st)
                     \/ n = strip raw)
         by (rewrite ?in_app_iff; intuition));
      destruct Hor as [H| ->]; auto.
Qed.

Lemma parse_lines_names (P : string -> Prop) (lines : list string) :
  forall st,
    (forall n, In n (state_names st) -> P n) ->
    (forall raw, In raw lines ->
       is_empty (strip raw) = false ->
       startswith (strip raw) "###" = false ->
       swallowed (strip raw) = false -> P (strip raw)) ->
    forall n, In n (state_names (parse_lines st lines)) -> P n.
Proof.
  induction lines as [|raw lines IH]; intros st Hst Hl; [exact Hst|].
  simpl. apply IH.
  - apply parse_line_names; [exact Hst|]. apply Hl. now left.
  - intros r Hr. apply Hl. now right.
Qed.

(** Every name restore mode reads from a file is a line of that file with
    the white space at both ends removed; it is not empty, does not begin
    with "###" and does not begin with a sentinel prefix. *)
Theorem parsed_names_are_trimmed_lines (content n : string) :
  In n (all_names (parse_text content)) ->
  exists raw,
    In raw (readlines content)
    /\ n = strip raw
    /\ strip n = n
    /\ n <> EmptyString
    /\ startswith n "###" = false
    /\ swallowed n = false.
Proof.
  unfold parse_text, all_names, report_of. cbn [applications formulae casks].
  apply (parse_lines_names
           (fun n => exists raw,
                In raw (readlines content) /\ n = strip raw /\ strip n = n
                /\ n <> EmptyString /\ startswith n "###" = false
                /\ swallowed n = false)
           (readlines content) parse_init).
  - intros m [].
  - intros raw Hin He Hh Hs. exists raw.
    repeat split; try assumption.
    + apply strip_idem.
    + intros E. rewrite E in He. discriminate.
Qed.

Lemma parsed_names_are_trimmed_lines_witness :
  In "wget" (all_names (parse_text artifact_example))
  /\ exists raw,
       In raw (readlines artifact_example)
       /\ "wget" = strip raw
       /\ strip "wget" = "wget"
       /\ "wget" <> EmptyString
       /\ startswith "wget" "###" = false
       /\ swallowed "wget" = false.
Proof.
  assert (H : In "wget" (all_names (parse_text artifact_example)))
    by (left; reflexivity).
  split; [exact H|].
  exact (parsed_names_are_trimmed_lines artifact_example "wget" H).
Defined.

Lemma parse_line_no_section (st : ParseState) (raw : string) :
  current_section st = None ->
  known_header (strip raw) = false ->
  parse_line st raw = st.
Proof.
  intros Hsec Hk. unfold parse_line, known_header in *.
  destruct (is_empty (strip raw)); [reflexivity|].
  destruct (startswith (strip raw) "###").
  - simpl in Hk. apply orb_false_iff in Hk as [Hk Hc].
    apply orb_false_iff in Hk as [Ha Hf]. now rewrite Ha, Hf, Hc.
  - now rewrite Hsec.
Qed.

(** Whatever precedes the first recognised header of a file is ignored, and
    a file without a recognised header gives three empty lists. *)
Theorem lines_before_first_header_ignored (pre rest : list string) :
  (forall raw, In raw pre -> known_header (strip raw) = false) ->
  parse_lines parse_init (pre ++ rest) = parse_lines parse_init rest
  /\ report_of (parse_lines parse_init pre) = mkReport [] [] [].
Proof.
  intros Hpre.
  assert (E : parse_lines parse_init pre = parse_init).
  { induction pre as [|raw pre IH]; [reflexivity|]. simpl.
    rewrite parse_line_no_section; [| reflexivity | apply Hpre; now left].
    apply IH. intros r Hr. apply Hpre. now right. }
  split; [now rewrite parse_lines_app, E | now rewrite E].
Qed.

Lemma lines_before_first_header_ignored_witness :
  (forall raw, In raw ["Inventory of my laptop" +++ nl; "### Notes ###" +++ nl] ->
               known_header (strip raw) = false)
  /\ parse_lines parse_init
       (["Inventory of my laptop" +++ nl; "### Notes ###" +++ nl]
        ++ readlines artifact_example)
     = parse_lines parse_init (readlines artifact_example).
Proof.
  assert (H : forall raw,
             In raw ["Inventory of my laptop" +++ nl; "### Notes ###" +++ nl] ->
             known_header (strip raw) = false).
  { intros raw [<-|[<-|[]]]; reflexivity. }
  split; [exact H|].
  exact (proj1 (lines_before_first_header_ignored _ (readlines artifact_example) H)).
Defined.

Lemma parse_line_header (st : ParseState) (t : section_tag) :
  parse_line st (header_of t) = set_section st t.
Proof. destruct t; reflexivity. Qed.

Lemma report_of_extend (st : ParseState) (t : section_tag) (l : list string) :
  report_of (extend (set_section st t) t l)
  = mkReport (apps st ++ if tag_eqb SecApps t then l else [])
             (p_formulae st ++ if tag_eqb SecFormulae t then l else [])
             (p_casks st ++ if tag_eqb SecCasks t then l else []).
Proof. destruct t; simpl; now rewrite ?app_nil_r. Qed.

Lemma parse_sections (secs : list (section_tag * list string)) :
  (forall sec, In sec secs -> forallb plain_name (snd sec) = true) ->
  forall st,
    report_of (parse_lines st (flat_map section_lines secs))
    = mkReport (apps st ++ names_of SecApps secs)
               (p_formulae st ++ names_of SecFormulae secs)
               (p_casks st ++ names_of SecCasks secs).
Proof.
  induction secs as [|[t items] secs IH]; intros Hplain st.
  - simpl. rewrite !app_nil_r. now destruct st.
  - cbn [flat_map]. rewrite parse_lines_app.
    change (parse_lines st (section_lines (t, items)))
      with (parse_lines (parse_line st (header_of t)) items).
    rewrite parse_line_header.
    rewrite (parse_lines_plain t items (Hplain (t, items) (or_introl eq_refl)))
      by reflexivity.
    rewrite IH by (intros sec Hsec; apply Hplain; now right).
    pose proof (report_of_extend st t (keep items)) as E.
    injection E as Ea Ef Ec. rewrite Ea, Ef, Ec.
    unfold names_of. cbn [flat_map fst snd]. now rewrite <- !app_assoc.
Qed.

(** The parser does not depend on the order of the sections: in a file
    made of sections in any order, a section possibly showing up several
    times, each list gathers, in file order, the names of the sections that
    carry its header. *)
Theorem sections_in_any_order (secs : list (section_tag * list string)) :
  (forall sec, In sec secs -> forallb plain_name (snd sec) = true) ->
  parse_text (write_items (flat_map section_lines secs))
  = mkReport (names_of SecApps secs) (names_of SecFormulae secs)
             (names_of SecCasks secs).
Proof.
  intros Hplain. unfold parse_text, readlines.
  rewrite <- (append_nil_r (write_items _)).
  rewrite readlines_write_items.
  - simpl. rewrite app_nil_r, parse_lines_nl.
    now rewrite (parse_sections secs Hplain parse_init).
  - apply forallb_forall. intros line Hline.
    apply in_flat_map in Hline as ([t items] & Hsec & [<-|Hin]).
    + now destruct t.
    + specialize (Hplain _ Hsec). simpl in Hplain, Hin.
      apply plain_single_line in Hplain.
      exact (proj1 (forallb_forall _ _) Hplain line Hin).
Qed.

Lemma sections_in_any_order_witness :
  (forall sec,
      In sec [(SecCasks, ["firefox"]); (SecApps, ["Safari"; " Xcode "]);
              (SecCasks, ["vlc"; "No such cask"])] ->
      forallb plain_name (snd sec) = true)
  /\ parse_text
       (write_items
          (flat_map section_lines
             [(SecCasks, ["firefox"]); (SecApps, ["Safari"; " Xcode "]);
              (SecCasks, ["vlc"; "No such cask"])]))
     = mkReport ["Safari"; "Xcode"] [] ["firefox"; "vlc"].
Proof.
  assert (H : forall sec,
             In sec [(SecCasks, ["firefox"]); (SecApps, ["Safari"; " Xcode "]);
                     (SecCasks, ["vlc"; "No such cask"])] ->
             forallb plain_name (snd sec) = true).
  { intros sec [<-|[<-|[<-|[]]]]; reflexivity. }
  split; [exact H|].
  exact (sections_in_any_order _ H).
Defined.

(** ** The selection gate *)

Lemma subseq_refl {A} (l : list A) : subseq l l.
Proof. induction l; constructor; assumption. Qed.

Lemma subseq_nil_l {A} (l : list A) : subseq [] l.
Proof. induction l; constructor; assumption. Qed.

Lemma checked_items_subseq (checked : nat -> bool) (items : list string) :
  forall i, subseq (checked_items checked i items) items.
Proof.
  induction items as [|x items IH]; intros i; simpl; [constructor|].
  destruct (checked i); constructor; apply IH.
Qed.

Lemma checked_items_all (checked : nat -> bool) (items : list string) :
  forall k,
    (forall i, k <= i < k + length items -> checked i = true) ->
    checked_items checked k items = items.
Proof.
  induction items as [|x items IH]; intros k H; simpl; [reflexivity|].
  rewrite (H k) by (simpl; lia). f_equal.
  apply IH. intros i Hi. apply H. simpl. lia.
Qed.

Lemma select_items_shape (env : Env) (title : string) (items : list string)
  (h : trace) :
  exists r tr,
    select_items_with_tkinter env title items h = (r, h ++ tr)
    /\ runs tr = [] /\ writes tr = []
    /\ (tr = [] \/ tr = [Dialog title items])
    /\ match r with
       | Val sel =>
           subseq sel items
           /\ (TKINTER_AVAILABLE env = false -> sel = items)
       | Return => False
       | Raise e =>
           TKINTER_AVAILABLE env = true
           /\ exists h' t i, checklist env h' t i = TclError e
       end.
Proof.
  unfold select_items_with_tkinter.
  destruct (TKINTER_AVAILABLE env) eqn:Htk; simpl.
  2:{ exists (Val items), []. unfold ret. rewrite app_nil_r.
      repeat split; auto. apply subseq_refl. }
  destruct (truthy items) eqn:Ht; simpl.
  2:{ exists (Val items), []. unfold ret. rewrite app_nil_r.
      repeat split; auto. apply subseq_refl. }
  destruct (checklist env h title items) as [checked| |e] eqn:Hc.
  - exists (Val (checked_items checked 0 items)), [Dialog title items].
    repeat split; auto; [apply checked_items_subseq | discriminate].
  - exists (Val []), [Dialog title items].
    repeat split; auto; [apply subseq_nil_l | discriminate].
  - exists (Raise e), []. rewrite app_nil_r.
    repeat split; auto. now exists h, title, items.
Qed.

(** What the checklist returns is the list of candidates with some of them
    left out: nothing is added, renamed or reordered, and at most one window
    is opened.  Pressing OK with every box still checked returns the
    candidates as they are. *)
Theorem selection_is_subsequence (env : Env) (title : string)
  (items : list string) (h : trace) :
  (forall sel h',
      select_items_with_tkinter env title items h = (Val sel, h') ->
      subseq sel items /\ (h' = h \/ h' = h ++ [Dialog title items]))
  /\ (forall checked,
        TKINTER_AVAILABLE env = true ->
        items <> [] ->
        checklist env h title items = Confirmed checked ->
        (forall i, i < length items -> checked i = true) ->
        select_items_with_tkinter env title items h
        = (Val items, h ++ [Dialog title items])).
Proof.
  split.
  - intros sel h' E.
    destruct (select_items_shape env title items h)
      as (r & tr & E' & _ & _ & Htr & Hr).
    rewrite E in E'. injection E' as <- ->.
    split; [exact (proj1 Hr)|].
    destruct Htr as [-> | ->]; [left; now rewrite app_nil_r | now right].
  - intros checked Htk Hne Hc Hall. unfold select_items_with_tkinter.
    destruct items as [|x items]; [contradiction|].
    rewrite Htk. cbn [truthy negb orb]. rewrite Hc.
    rewrite checked_items_all; [reflexivity|].
    intros i Hi. apply Hall. lia.
Qed.

Lemma selection_is_subsequence_witness :
  select_items_with_tkinter env_tk "Select Homebrew Formulae to install"
    ["git"; "wget"; "curl"] []
  = (Val ["git"; "curl"],
     [Dialog "Select Homebrew Formulae to install" ["git"; "wget"; "curl"]])
  /\ subseq ["git"; "curl"] ["git"; "wget"; "curl"].
Proof.
  split; [reflexivity|].
  exact (proj1 (proj1 (selection_is_subsequence env_tk
                         "Select Homebrew Formulae to install"
                         ["git"; "wget"; "curl"] [])
                  ["git"; "curl"] _ eq_refl)).
Defined.

(** ** The commands of restore mode *)

Lemma writes_app (l1 l2 : trace) : writes (l1 ++ l2) = writes l1 ++ writes l2.
Proof.
  induction l1 as [|ev l1 IH]; simpl; [reflexivity|].
  destruct ev; simpl; now rewrite IH.
Qed.

Lemma logged_no_run (env : Env) (P : list string -> string -> Prop)
  (h tr : trace) :
  runs tr = [] -> logged env P h tr.
Proof.
  intros Hr pre a post e ->. rewrite runs_app in Hr. simpl in Hr.
  now destruct (runs pre).
Qed.

Lemma logged_app (env : Env) (P : list string -> string -> Prop)
  (h l1 l2 : trace) :
  logged env P h l1 -> logged env P (h ++ l1) l2 ->
  logged env P h (l1 ++ l2).
Proof.
  intros H1 H2 pre a post e E Hfail.
  apply app_split in E as [(m & E & ->) | (m & -> & E)].
  - destruct (H1 _ _ _ _ E Hfail) as (item & post' & HP & ->).
    now exists item, (post' ++ l2).
  - rewrite app_assoc in Hfail. exact (H2 _ _ _ _ E Hfail).
Qed.

Lemma logged_weaken (env : Env) (P Q : list string -> string -> Prop)
  (h tr : trace) :
  (forall a item, P a item -> Q a item) ->
  logged env P h tr -> logged env Q h tr.
Proof.
  intros HPQ H pre a post e E Hfail.
  destruct (H _ _ _ _ E Hfail) as (item & post' & HP & ->).
  exists item, post'. split; [now apply HPQ | reflexivity].
Qed.

Lemma logged_attempt (env : Env) (P : list string -> string -> Prop)
  (h : trace) (s : string) (a : list string) (tl : trace) :
  (forall e, subprocess_run env (h ++ [Print s]) a = CalledProcessError e ->
             exists item post',
               P a item /\ tl = Print (failed_msg item e) :: post') ->
  runs tl = [] ->
  logged env P h (Print s :: Run a :: tl).
Proof.
  intros Hlog Htl pre b post e E Hfail.
  apply cons_split in E as [(_ & E & _) | (p1 & -> & E)]; [discriminate|].
  apply cons_split in E as [(-> & E & <-) | (p2 & -> & E)].
  - injection E as <-. exact (Hlog e Hfail).
  - exfalso. apply (f_equal runs) in E. rewrite Htl, runs_app in E.
    simpl in E. now destruct (runs p2).
Qed.

Section RestoreShape.

Variable env : Env.

(** An install loop spawns the installs of a first part of its list, of all
    of it when it falls through; it writes nothing; it raises only what a
    spawned process raised; it returns only after the error message. *)
Lemma install_loop_shape (kind : string) (argv : string -> list string)
  (items : list string) :
  forall h, exists r tr k,
    install_loop env kind argv items h = (r, h ++ tr)
    /\ runs tr = map argv (firstn k items)
    /\ (r = Val tt -> k = length items)
    /\ writes tr = []
    /\ (r = Return ->
        In (Print BREW_MISSING_MSG) tr
        /\ exists h' a, subprocess_run env h' a = FileNotFoundError)
    /\ (forall e, r = Raise e ->
          exists h' a, subprocess_run env h' a = OtherError e)
    /\ logged env (fun a item => a = argv item /\ In item items) h tr.
Proof.
  induction items as [|item rest IH]; intros h.
  - exists (Val tt), [], 0. rewrite app_nil_r.
    repeat split; try discriminate. now apply logged_no_run.
  - rewrite install_loop_cons.
    destruct (subprocess_run env (h ++ [Print (installing_msg kind item)])
                (argv item)) as [out|e0| |e0] eqn:Hrun.
    + destruct (IH (h ++ [Print (installing_msg kind item); Run (argv item)]))
        as (r & tr & k & E & Hruns & Hk & Hw & Hret & Hraise & Hlog).
      exists r, (Print (installing_msg kind item) :: Run (argv item) :: tr),
        (S k).
      split; [rewrite E; norm_trace; reflexivity|].
      split; [simpl; now rewrite Hruns|].
      split; [intros Hr; simpl; now rewrite (Hk Hr)|].
      split; [exact Hw|].
      split; [|split; [exact Hraise|]].
      * intros Hr. destruct (Hret Hr) as [Hin Hex]. split; [|exact Hex].
        right. right. exact Hin.
      * apply (logged_app env _ h
                 [Print (installing_msg kind item); Run (argv item)] tr).
        -- apply logged_attempt; [|reflexivity].
           intros e He. rewrite Hrun in He. discriminate.
        -- eapply logged_weaken; [|exact Hlog].
           intros a it [Ha Hin]. split; [exact Ha | now right].
    + destruct (IH (h ++ [Print (installing_msg kind item); Run (argv item);
                          Print (failed_msg item e0)]))
        as (r & tr & k & E & Hruns & Hk & Hw & Hret & Hraise & Hlog).
      exists r, (Print (installing_msg kind item) :: Run (argv item)
                 :: Print (failed_msg item e0) :: tr), (S k).
      split; [rewrite E; norm_trace; reflexivity|].
      split; [simpl; now rewrite Hruns|].
      split; [intros Hr; simpl; now rewrite (Hk Hr)|].
      split; [exact Hw|].
      split; [|split; [exact Hraise|]].
      * intros Hr. destruct (Hret Hr) as [Hin Hex]. split; [|exact Hex].
        right. right. right. exact Hin.
      * apply (logged_app env _ h
                 [Print (installing_msg kind item); Run (argv item);
                  Print (failed_msg item e0)] tr).
        -- apply logged_attempt; [|reflexivity].
           intros e He. rewrite Hrun in He. injection He as <-.
           exists item, []. repeat split. now left.
        -- eapply logged_weaken; [|exact Hlog].
           intros a it [Ha Hin]. split; [exact Ha | now right].
    + exists Return,
        [Print (installing_msg kind item); Run (argv item);
         Print BREW_MISSING_MSG], 1.
      split; [reflexivity|]. split; [reflexivity|].
      split; [discriminate|]. split; [reflexivity|].
      split; [intros _; split; [right; right; now left | eauto]|].
      split; [discriminate|].
      apply logged_attempt; [|reflexivity].
      intros e He. rewrite Hrun in He. discriminate.
    + exists (Raise e0),
        [Print (installing_msg kind item); Run (argv item)], 1.
      split; [reflexivity|]. split; [reflexivity|].
      split; [discriminate|]. split; [reflexivity|].
      split; [discriminate|].
      split; [intros e [= <-]; eauto|].
      apply logged_attempt; [|reflexivity].
      intros e He. rewrite Hrun in He. discriminate.
Qed.

Lemma install_phase_shape (hdr kind : string) (argv : string -> list string)
  (items : list string) (h : trace) :
  exists r tr k,
    (if truthy items
     then print hdr ;; install_loop env kind argv items
     else ret tt) h = (r, h ++ tr)
    /\ runs tr = map argv (firstn k items)
    /\ (r = Val tt -> k = length items)
    /\ writes tr = []
    /\ (r = Return ->
        In (Print BREW_MISSING_MSG) tr
        /\ exists h' a, subprocess_run env h' a = FileNotFoundError)
    /\ (forall e, r = Raise e ->
          exists h' a, subprocess_run env h' a = OtherError e)
    /\ logged env (fun a item => a = argv item /\ In item items) h tr.
Proof.
  destruct items as [|item rest].
  - exists (Val tt), [], 0. simpl. unfold ret. rewrite app_nil_r.
    repeat split; try discriminate. now apply logged_no_run.
  - cbn [truthy]. unfold bind at 1. unfold print, emit.
    destruct (install_loop_shape kind argv (item :: rest) (h ++ [Print hdr]))
      as (r & tr & k & E & Hruns & Hk & Hw & Hret & Hraise & Hlog).
    rewrite E. exists r, (Print hdr :: tr), k.
    split; [norm_trace; now destruct r|].
    split; [exact Hruns|]. split; [exact Hk|]. split; [exact Hw|].
    split; [|split; [exact Hraise|]].
    + intros Hr. split; [right|]; now apply Hret.
    + apply (logged_app env _ h [Print hdr] tr); [|exact Hlog].
      now apply logged_no_run.
Qed.

Lemma select_stage_shape (fs cs : list string) (h : trace) :
  exists r tr,
    select_stage env fs cs h = (r, h ++ tr)
    /\ runs tr = [] /\ writes tr = []
    /\ ~ In (Print BREW_MISSING_MSG) tr
    /\ match r with
       | Val (fs', cs') =>
           subseq fs' fs /\ subseq cs' cs
           /\ (TKINTER_AVAILABLE env = false -> fs' = fs /\ cs' = cs)
       | Return => False
       | Raise e =>
           TKINTER_AVAILABLE env = true
           /\ exists h' t i, checklist env h' t i = TclError e
       end.
Proof.
  unfold select_stage. destruct (TKINTER_AVAILABLE env) eqn:Htk.
  - assert (Hsel : forall title items h0, exists r tr,
               (if truthy items
                then select_items_with_tkinter env title items
                else ret items) h0 = (r, h0 ++ tr)
               /\ runs tr = [] /\ writes tr = []
               /\ ~ In (Print BREW_MISSING_MSG) tr
               /\ match r with
                  | Val sel => subseq sel items
                  | Return => False
                  | Raise e => exists h' t i, checklist env h' t i = TclError e
                  end).
    { intros title items h0. destruct (truthy items).
      - destruct (select_items_shape env title items h0)
          as (r & tr & E & Hr & Hw & Htr & Hres).
        exists r, tr. repeat split; try assumption.
        + destruct Htr as [-> | ->]; simpl; [tauto|].
          intros [H|[]]. discriminate.
        + destruct r; [exact (proj1 Hres) | exact Hres | exact (proj2 Hres)].
      - exists (Val items), []. unfold ret. rewrite app_nil_r.
        repeat split; auto. apply subseq_refl. }
    unfold bind at 1.
    destruct (Hsel "Select Homebrew Formulae to install" fs h)
      as (r1 & tr1 & E1 & R1 & W1 & M1 & H1).
    rewrite E1. destruct r1 as [fs'| |e]; [|contradiction|].
    2:{ exists (Raise e), tr1. repeat split; assumption. }
    unfold bind at 1.
    destruct (Hsel "Select Homebrew Casks to install" cs (h ++ tr1))
      as (r2 & tr2 & E2 & R2 & W2 & M2 & H2).
    rewrite E2. destruct r2 as [cs'| |e]; [|contradiction|].
    + exists (Val (fs', cs')), (tr1 ++ tr2). unfold ret.
      split; [norm_trace; reflexivity|].
      rewrite runs_app, writes_app, R1, R2, W1, W2.
      repeat split; try assumption; try discriminate.
      rewrite in_app_iff. tauto.
    + exists (Raise e), (tr1 ++ tr2).
      split; [norm_trace; reflexivity|].
      rewrite runs_app, writes_app, R1, R2, W1, W2.
      repeat split; try assumption.
      rewrite in_app_iff. tauto.
  - unfold bind, ret, print, emit.
    destruct (truthy fs || truthy cs).
    + exists (Val (fs, cs)), [Print NOTE_MSG].
      repeat split; auto using subseq_refl.
      intros [H|[]]. discriminate.
    + exists (Val (fs, cs)), []. rewrite app_nil_r.
      repeat split; auto using subseq_refl.
Qed.

End RestoreShape.

Lemma writes_manual_events (apps : list string) :
  writes (manual_events apps) = [].
Proof.
  unfold manual_events. destruct (truthy apps); [|reflexivity].
  simpl. induction apps as [|a apps IH]; [reflexivity | exact IH].
Qed.

(** The run of restore mode on an existing file, as to what it installs. *)
Lemma restore_shape (env : Env) (filepath content : string) (h : trace) :
  read_file env filepath = FileText content ->
  exists r tr fs cs kf kc,
    run_restore_mode env filepath h = (r, h ++ tr)
    /\ subseq fs (formulae (parse_text content))
    /\ subseq cs (casks (parse_text content))
    /\ (TKINTER_AVAILABLE env = false ->
        fs = formulae (parse_text content) /\ cs = casks (parse_text content))
    /\ runs tr = map formula_argv (firstn kf fs) ++ map cask_argv (firstn kc cs)
    /\ (0 < kc -> kf = length fs)
    /\ writes tr = []
    /\ (r = Val tt ->
        ~ In (Print BREW_MISSING_MSG) tr
        \/ (forall h' a, subprocess_run env h' a <> FileNotFoundError) ->
        kf = length fs /\ kc = length cs)
    /\ r <> Return
    /\ (forall e, r = Raise e ->
          (exists h' a, subprocess_run env h' a = OtherError e)
          \/ (TKINTER_AVAILABLE env = true
              /\ exists h' t i, checklist env h' t i = TclError e)).
Proof.
  intros Hread. unfold run_restore_mode, def_. rewrite Hread.
  set (start := Print ("--- Parsing software list from " +++ filepath +++ " ---")).
  set (pf := formulae (parse_text content)).
  set (pc := casks (parse_text content)).
  unfold bind at 1. unfold print at 1, emit. fold start.
  unfold bind at 1.
  destruct (select_stage_shape env pf pc (h ++ [start]))
    as (rs & trs & Es & Rs & Ws & Ms & Hs).
  rewrite Es.
  destruct rs as [[fs cs]| |e]; [|contradiction|].
  2:{ exists (Raise e), (start :: trs), pf, pc, 0, 0.
      split; [norm_trace; reflexivity|].
      repeat split; auto using subseq_refl; try discriminate; try lia.
      intros e' [= <-]. now right. }
  destruct Hs as (Sf & Sc & Htk).
  unfold bind at 1.
  destruct (install_phase_shape env (nl +++ "--- Installing Homebrew Formulae ---")
              "formula" formula_argv fs ((h ++ [start]) ++ trs))
    as (r1 & tr1 & k1 & E1 & R1 & K1 & W1 & Ret1 & Raise1 & _).
  rewrite E1.
  destruct r1 as [[]| |e].
  3:{ exists (Raise e), ((start :: trs) ++ tr1), fs, cs, k1, 0.
      split; [norm_trace; reflexivity|].
      split; [exact Sf|]. split; [exact Sc|]. split; [exact Htk|].
      split; [simpl; now rewrite runs_app, Rs, R1, app_nil_r|].
      split; [lia|].
      split; [simpl; now rewrite writes_app, Ws, W1|].
      split; [discriminate|]. split; [discriminate|].
      intros e' [= <-]. left. now apply Raise1. }
  2:{ exists (Val tt), ((start :: trs) ++ tr1), fs, cs, k1, 0.
      split; [norm_trace; reflexivity|].
      split; [exact Sf|]. split; [exact Sc|]. split; [exact Htk|].
      split; [simpl; now rewrite runs_app, Rs, R1, app_nil_r|].
      split; [lia|].
      split; [simpl; now rewrite writes_app, Ws, W1|].
      split; [|split; discriminate].
      intros _ Hno. exfalso. destruct (Ret1 eq_refl) as [Hin (h0 & a & Hm)].
      destruct Hno as [Hno|Hno]; [|exact (Hno _ _ Hm)].
      apply Hno. right. apply in_or_app. right. exact Hin. }
  specialize (K1 eq_refl).
  unfold bind at 1.
  destruct (install_phase_shape env (nl +++ "--- Installing Homebrew Casks ---")
              "cask" cask_argv cs (((h ++ [start]) ++ trs) ++ tr1))
    as (r2 & tr2 & k2 & E2 & R2 & K2 & W2 & Ret2 & Raise2 & _).
  rewrite E2.
  destruct r2 as [[]| |e].
  3:{ exists (Raise e), (((start :: trs) ++ tr1) ++ tr2), fs, cs, k1, k2.
      split; [norm_trace; reflexivity|].
      split; [exact Sf|]. split; [exact Sc|]. split; [exact Htk|].
      split; [simpl; now rewrite !runs_app, Rs, R1, R2|].
      split; [intros _; exact K1|].
      split; [simpl; now rewrite !writes_app, Ws, W1, W2|].
      split; [discriminate|]. split; [discriminate|].
      intros e' [= <-]. left. now apply Raise2. }
  2:{ exists (Val tt), (((start :: trs) ++ tr1) ++ tr2), fs, cs, k1, k2.
      split; [norm_trace; reflexivity|].
      split; [exact Sf|]. split; [exact Sc|]. split; [exact Htk|].
      split; [simpl; now rewrite !runs_app, Rs, R1, R2|].
      split; [intros _; exact K1|].
      split; [simpl; now rewrite !writes_app, Ws, W1, W2|].
      split; [|split; discriminate].
      intros _ Hno. exfalso. destruct (Ret2 eq_refl) as [Hin (h0 & a & Hm)].
      destruct Hno as [Hno|Hno]; [|exact (Hno _ _ Hm)].
      apply Hno. apply in_or_app. right. exact Hin. }
  specialize (K2 eq_refl).
  unfold bind at 1. rewrite manual_list_trace. unfold print, emit.
  exists (Val tt),
    ((((start :: trs) ++ tr1) ++ tr2)
     ++ manual_events (applications (parse_text content)) ++ [Print COMPLETE_MSG]),
    fs, cs, k1, k2.
  split; [norm_trace; reflexivity|].
  split; [exact Sf|]. split; [exact Sc|]. split; [exact Htk|].
  split.
  { simpl. rewrite !runs_app, Rs, R1, R2, runs_manual_events. simpl.
    now rewrite app_nil_r. }
  split; [intros _; exact K1|].
  split.
  { simpl. now rewrite !writes_app, Ws, W1, W2, writes_manual_events. }
  split; [intros _ _; now split|]. split; discriminate.
Qed.

(** With Tkinter, the human keeping only the boxes of even rank: of the
    formulae "git" and "wget" read from the file only "git" is installed,
    then the cask "firefox". *)
Example restore_with_selection :
  runs (snd (run_restore_mode env_tk "inventory.txt" []))
  = [["brew"; "install"; "git"]; ["brew"; "install"; "--cask"; "firefox"]].
Proof. reflexivity. Qed.



(** ** Index mode and the dispatcher *)

Lemma dialogs_app (l1 l2 : trace) :
  dialogs (l1 ++ l2) = dialogs l1 ++ dialogs l2.
Proof.
  induction l1 as [|ev l1 IH]; simpl; [reflexivity|].
  destruct ev; simpl; now rewrite IH.
Qed.

(** The run of index mode: its commands, its one file, its failures. *)
Lemma index_shape (env : Env) (h : trace) :
  exists r tr,
    run_index_mode env h = (r, h ++ tr)
    /\ (runs tr = [["brew"; "list"; "--formula"]]
        \/ runs tr = [["brew"; "list"; "--formula"]; ["brew"; "list"; "--cask"]])
    /\ dialogs tr = []
    /\ match r with
       | Val _ =>
           exists content,
             writes tr = [(report_filename env, content)]
             /\ exists pre,
                  tr = pre ++ [WriteFile (report_filename env) content;
                               Print ("Report saved to: " +++ report_filename env)]
       | Return => False
       | Raise e =>
           writes tr = []
           /\ (forall line, In (Print line) tr -> False)
           /\ ((exists h' argv, subprocess_run env h' argv = OtherError e)
               \/ write_error env (report_filename env) = Some e)
       end.
Proof.
  unfold run_index_mode, def_, get_brew_packages, get_brew_casks, brew_list,
    bind, run, ret, raise, write_file, print, emit.
  destruct (subprocess_run env h ["brew"; "list"; "--formula"])
    as [o1|e1| |e1] eqn:E1.
  4:{ exists (Raise e1), [Run ["brew"; "list"; "--formula"]].
      repeat split; auto.
      - intros line [H|[]]. discriminate.
      - left. eauto. }
  all: destruct (subprocess_run env (h ++ [Run ["brew"; "list"; "--formula"]])
                  ["brew"; "list"; "--cask"]) as [o2|e2| |e2] eqn:E2;
    try (exists (Raise e2),
           [Run ["brew"; "list"; "--formula"]; Run ["brew"; "list"; "--cask"]];
         split; [norm_trace; reflexivity|];
         repeat split; auto;
         [intros line [H|[H|[]]]; discriminate | left; eauto]);
    destruct (write_error env (report_filename env)) as [e|] eqn:Ew;
    try (exists (Raise e),
           [Run ["brew"; "list"; "--formula"]; Run ["brew"; "list"; "--cask"]];
         split; [norm_trace; reflexivity|];
         repeat split; auto;
         intros line [H|[H|[]]]; discriminate);
    (eexists (Val tt), [Run ["brew"; "list"; "--formula"];
                        Run ["brew"; "list"; "--cask"]; WriteFile _ _; Print _];
     split; [norm_trace; reflexivity|];
     split; [right; reflexivity|]; split; [reflexivity|];
     eexists; split; [reflexivity|];
     exists [Run ["brew"; "list"; "--formula"]; Run ["brew"; "list"; "--cask"]];
     reflexivity).
Qed.


(** [main] runs one mode only.  With a non-empty [--restore] path it
    restores: it writes no file and every command it spawns is an install.
    Otherwise, also when the path given to [--restore] is the empty string,
    it indexes: it prints the index banner and every command it spawns is a
    listing.  The flag [--index] changes nothing. *)
Theorem main_runs_one_mode (env : Env) (args : Namespace) (h h' : trace)
  (r : res unit) :
  main env args h = (r, h') ->
  exists tr,
    h' = h ++ tr
    /\ match args_restore args with
       | Some (String c p) =>
           (r, h') = run_restore_mode env (String c p) h
           /\ writes tr = []
           /\ forall argv, In argv (runs tr) ->
                exists name,
                  argv = ["brew"; "install"; name]
                  \/ argv = ["brew"; "install"; "--cask"; name]
       | _ =>
           (r, h') = run_index_mode env (h ++ [Print INDEX_BANNER])
           /\ In (Print INDEX_BANNER) tr
           /\ forall argv, In argv (runs tr) ->
                argv = ["brew"; "list"; "--formula"]
                \/ argv = ["brew"; "list"; "--cask"]
       end.
Proof.
  intros Hmain.
  assert (Hidx : (def_ (print INDEX_BANNER ;; run_index_mode env)) h = (r, h') ->
                 exists tr,
                   h' = h ++ tr
                   /\ (r, h') = run_index_mode env (h ++ [Print INDEX_BANNER])
                   /\ In (Print INDEX_BANNER) tr
                   /\ forall argv, In argv (runs tr) ->
                        argv = ["brew"; "list"; "--formula"]
                        \/ argv = ["brew"; "list"; "--cask"]).
  { unfold def_, bind, print, emit.
    destruct (index_shape env (h ++ [Print INDEX_BANNER]))
      as (r0 & tr & E & Hruns & _ & Hr).
    rewrite E. intros Hm.
    assert (Hm' : (r0, (h ++ [Print INDEX_BANNER]) ++ tr) = (r, h'))
      by (destruct r0; [exact Hm | contradiction | exact Hm]).
    injection Hm' as <- <-.
    exists (Print INDEX_BANNER :: tr).
    split; [norm_trace; reflexivity|]. split; [reflexivity|].
    split; [now left|].
    intros argv Hin. simpl in Hin.
    destruct Hruns as [Hruns|Hruns]; rewrite Hruns in Hin; simpl in Hin;
      intuition. }
  unfold main in Hmain.
  destruct (args_restore args) as [[|c p]|]; [now apply Hidx | | now apply Hidx].
  cbn [is_empty negb] in Hmain. unfold def_ in Hmain.
  destruct (read_file env (String c p)) as [|content|e] eqn:Hread.
  - assert (E : run_restore_mode env (String c p) h
                = (Val tt, h ++ [Print (not_found_msg (String c p))])).
    { unfold run_restore_mode, def_, bind, print, emit, return_.
      now rewrite Hread. }
    rewrite E in *. injection Hmain as <- <-.
    exists [Print (not_found_msg (String c p))].
    repeat split. intros argv [].
  - destruct (restore_shape env (String c p) content h Hread)
      as (r0 & tr & fs & cs & kf & kc & E & _ & _ & _ & Hruns & _ & Hw & _
          & Hret & _).
    rewrite E in *.
    assert (Hm' : (r0, h ++ tr) = (r, h'))
      by (destruct r0; [exact Hmain | now elim Hret | exact Hmain]).
    injection Hm' as <- <-.
    exists tr. split; [reflexivity|]. split; [reflexivity|].
    split; [exact Hw|].
    intros argv Hin. rewrite Hruns in Hin.
    apply in_app_or in Hin as [Hin|Hin];
      apply in_map_iff in Hin as (name & <- & _); exists name;
      [left | right]; reflexivity.
  - assert (E : run_restore_mode env (String c p) h
                = (Raise e,
                   h ++ [Print ("--- Parsing software list from "
                                +++ String c p +++ " ---")])).
    { unfold run_restore_mode, def_, bind, print, emit, raise.
      now rewrite Hread. }
    rewrite E in *. injection Hmain as <- <-.
    eexists. split; [reflexivity|].
    repeat split. intros argv [].
Qed.

Lemma main_runs_one_mode_witness :
  args_restore (mkArgs false (Some EmptyString)) = Some EmptyString
  /\ exists tr,
       snd (main env_bare (mkArgs false (Some EmptyString)) []) = [] ++ tr
       /\ (fst (main env_bare (mkArgs false (Some EmptyString)) []),
           snd (main env_bare (mkArgs false (Some EmptyString)) []))
          = run_index_mode env_bare ([] ++ [Print INDEX_BANNER])
       /\ In (Print INDEX_BANNER) tr
       /\ forall argv, In argv (runs tr) ->
            argv = ["brew"; "list"; "--formula"]
            \/ argv = ["brew"; "list"; "--cask"].
Proof.
  split; [reflexivity|].
  exact (main_runs_one_mode env_bare (mkArgs false (Some EmptyString)) []
           (snd (main env_bare (mkArgs false (Some EmptyString)) []))
           (fst (main env_bare (mkArgs false (Some EmptyString)) []))
           (surjective_pairing _)).
Defined.

(** ** Bundles without an inner ".app" *)

Lemma endswith_suffix (base : string) : endswith (base +++ ".app") ".app" = true.
Proof.
  induction base as [|c base IH]; [reflexivity|].
  cbn [String.append endswith]. rewrite IH. apply orb_true_r.
Qed.

(** A bundle "<base>.app" of a scanned directory whose base name holds no
    ".app" is collected under its base name. *)
Theorem bundle_collected_under_base_name (env : Env)
  (app_dir base : string) (entries : list string) :
  app_dir = "/Applications" \/ app_dir = expanduser env "~/Applications" ->
  listdir env app_dir = Some entries ->
  In (base +++ ".app") entries ->
  contains ".app" base = false ->
  In base (get_installed_apps env).
Proof.
  intros Hdir Hlist Hin Hbase. apply In_found_apps.
  exists app_dir, entries, (base +++ ".app").
  split; [unfold app_dirs; simpl; intuition|].
  split; [exact Hlist|]. split; [exact Hin|].
  split; [apply endswith_suffix|].
  symmetry. now apply replace_suffix_only.
Qed.

Lemma bundle_collected_under_base_name_witness :
  (listdir env_listing_a "/Applications"
   = Some ["Safari.app"; "Xcode.app"; "notes.txt"]
   /\ In ("Xcode" +++ ".app") ["Safari.app"; "Xcode.app"; "notes.txt"]
   /\ contains ".app" "Xcode" = false)
  /\ In "Xcode" (get_installed_apps env_listing_a).
Proof.
  split; [repeat split; right; left; reflexivity|].
  exact (bundle_collected_under_base_name env_listing_a "/Applications" "Xcode"
           ["Safari.app"; "Xcode.app"; "notes.txt"]
           (or_introl eq_refl) eq_refl (or_intror (or_introl eq_refl)) eq_refl).
Defined.

(** ** Index mode, then restore mode *)




(** The report written on the sample machine, read back: "git", "wget",
    then the cask "firefox". *)
Example pipeline_runs :
  read_file env_pipeline (report_filename env_pipeline)
  = FileText (write_report (mkReport ["Safari"] ["git"; "wget"] ["firefox"]))
  /\ runs (snd (run_restore_mode env_pipeline (report_filename env_pipeline) []))
     = [["brew"; "install"; "git"]; ["brew"; "install"; "wget"];
        ["brew"; "install"; "--cask"; "firefox"]].
Proof. split; reflexivity. Qed.

(** ** Restore mode after the selection *)

(** The selection step, from what the two calls of the selection gate
    return. *)
Lemma select_stage_selected (env : Env) (pf pc fs cs : list string)
  (h0 h1 h2 : trace) :
  select_items_with_tkinter env "Select Homebrew Formulae to install" pf h0
  = (Val fs, h1) ->
  select_items_with_tkinter env "Select Homebrew Casks to install" pc h1
  = (Val cs, h2) ->
  exists trs,
    select_stage env pf pc h0 = (Val (fs, cs), h0 ++ trs)
    /\ runs trs = [] /\ writes trs = [].
Proof.
  intros H1 H2. unfold select_stage.
  destruct (TKINTER_AVAILABLE env) eqn:Htk.
  - assert (Hif : forall title items hx,
               (if truthy items
                then select_items_with_tkinter env title items
                else ret items) hx
               = select_items_with_tkinter env title items hx).
    { intros title [|x items] hx; [|reflexivity].
      unfold select_items_with_tkinter. rewrite Htk. reflexivity. }
    unfold bind at 1. rewrite Hif, H1.
    unfold bind at 1. rewrite Hif, H2. unfold ret.
    destruct (select_items_shape env "Select Homebrew Formulae to install"
                pf h0) as (r1 & tr1 & E1 & R1 & W1 & _).
    rewrite H1 in E1. injection E1 as <- ->.
    destruct (select_items_shape env "Select Homebrew Casks to install"
                pc (h0 ++ tr1)) as (r2 & tr2 & E2 & R2 & W2 & _).
    rewrite H2 in E2. injection E2 as <- ->.
    exists (tr1 ++ tr2). split; [norm_trace; reflexivity|].
    now rewrite runs_app, writes_app, R1, R2, W1, W2.
  - unfold select_items_with_tkinter in H1, H2. rewrite Htk in H1, H2.
    cbn [negb orb] in H1, H2. unfold ret in H1, H2.
    injection H1 as <- <-. injection H2 as <- <-.
    unfold bind, ret, print, emit.
    destruct (truthy pf || truthy pc).
    + exists [Print NOTE_MSG]. repeat split.
    + exists []. rewrite app_nil_r. repeat split.
Qed.

(** What restore mode does once the lists to install are selected. *)
Lemma restore_after_selection (env : Env) (filepath content : string)
  (h trs : trace) (fs cs : list string) :
  read_file env filepath = FileText content ->
  select_stage env (formulae (parse_text content)) (casks (parse_text content))
    (h ++ [Print ("--- Parsing software list from " +++ filepath +++ " ---")])
  = (Val (fs, cs),
     (h ++ [Print ("--- Parsing software list from " +++ filepath +++ " ---")])
     ++ trs) ->
  runs trs = [] -> writes trs = [] ->
  exists r tr kf kc,
    run_restore_mode env filepath h = (r, h ++ tr)
    /\ runs tr = map formula_argv (firstn kf fs) ++ map cask_argv (firstn kc cs)
    /\ (0 < kc -> kf = length fs)
    /\ writes tr = []
    /\ (r = Val tt ->
        ~ In (Print BREW_MISSING_MSG) tr
        \/ (forall h' a, subprocess_run env h' a <> FileNotFoundError) ->
        kf = length fs /\ kc = length cs)
    /\ r <> Return
    /\ (forall e, r = Raise e ->
          exists h' a, subprocess_run env h' a = OtherError e)
    /\ logged env
         (fun a item =>
            (a = formula_argv item /\ In item fs)
            \/ (a = cask_argv item /\ In item cs)) h tr.
Proof.
  intros Hread Es Rs Ws. unfold run_restore_mode, def_. rewrite Hread.
  set (start := Print ("--- Parsing software list from " +++ filepath +++ " ---"))
    in *.
  set (P := fun (a : list string) (item : string) =>
              (a = formula_argv item /\ In item fs)
              \/ (a = cask_argv item /\ In item cs)).
  unfold bind at 1. unfold print at 1, emit. fold start.
  unfold bind at 1. rewrite Es.
  assert (L0 : logged env P h (start :: trs)) by now apply logged_no_run.
  unfold bind at 1.
  destruct (install_phase_shape env (nl +++ "--- Installing Homebrew Formulae ---")
              "formula" formula_argv fs ((h ++ [start]) ++ trs))
    as (r1 & tr1 & k1 & E1 & R1 & K1 & W1 & Ret1 & Raise1 & Log1).
  rewrite E1.
  assert (A1 : (h ++ [start]) ++ trs = h ++ start :: trs)
    by now rewrite <- app_assoc.
  rewrite A1 in Log1.
  assert (L1 : logged env P h ((start :: trs) ++ tr1)).
  { apply logged_app; [exact L0|].
    eapply logged_weaken; [|exact Log1]. intros a it Ha. now left. }
  destruct r1 as [[]| |e].
  3:{ exists (Raise e), ((start :: trs) ++ tr1), k1, 0.
      split; [norm_trace; reflexivity|].
      split; [simpl; now rewrite runs_app, Rs, R1, app_nil_r|].
      split; [lia|].
      split; [simpl; now rewrite writes_app, Ws, W1|].
      split; [discriminate|]. split; [discriminate|].
      split; [|exact L1]. intros e' [= <-]. now apply Raise1. }
  2:{ exists (Val tt), ((start :: trs) ++ tr1), k1, 0.
      split; [norm_trace; reflexivity|].
      split; [simpl; now rewrite runs_app, Rs, R1, app_nil_r|].
      split; [lia|].
      split; [simpl; now rewrite writes_app, Ws, W1|].
      split; [|split; [discriminate|split; [discriminate|exact L1]]].
      intros _ Hno. exfalso. destruct (Ret1 eq_refl) as [Hin (h0 & a & Hm)].
      destruct Hno as [Hno|Hno]; [|exact (Hno _ _ Hm)].
      apply Hno. right. apply in_or_app. right. exact Hin. }
  specialize (K1 eq_refl).
  unfold bind at 1.
  destruct (install_phase_shape env (nl +++ "--- Installing Homebrew Casks ---")
              "cask" cask_argv cs (((h ++ [start]) ++ trs) ++ tr1))
    as (r2 & tr2 & k2 & E2 & R2 & K2 & W2 & Ret2 & Raise2 & Log2).
  rewrite E2.
  assert (A2 : ((h ++ [start]) ++ trs) ++ tr1 = h ++ (start :: trs) ++ tr1)
    by now rewrite A1, <- app_assoc.
  rewrite A2 in Log2.
  assert (L2 : logged env P h (((start :: trs) ++ tr1) ++ tr2)).
  { apply logged_app; [exact L1|].
    eapply logged_weaken; [|exact Log2]. intros a it Ha. now right. }
  destruct r2 as [[]| |e].
  3:{ exists (Raise e), (((start :: trs) ++ tr1) ++ tr2), k1, k2.
      split; [norm_trace; reflexivity|].
      split; [simpl; now rewrite !runs_app, Rs, R1, R2|].
      split; [intros _; exact K1|].
      split; [simpl; now rewrite !writes_app, Ws, W1, W2|].
      split; [discriminate|]. split; [discriminate|].
      split; [|exact L2]. intros e' [= <-]. now apply Raise2. }
  2:{ exists (Val tt), (((start :: trs) ++ tr1) ++ tr2), k1, k2.
      split; [norm_trace; reflexivity|].
      split; [simpl; now rewrite !runs_app, Rs, R1, R2|].
      split; [intros _; exact K1|].
      split; [simpl; now rewrite !writes_app, Ws, W1, W2|].
      split; [|split; [discriminate|split; [discriminate|exact L2]]].
      intros _ Hno. exfalso. destruct (Ret2 eq_refl) as [Hin (h0 & a & Hm)].
      destruct Hno as [Hno|Hno]; [|exact (Hno _ _ Hm)].
      apply Hno. apply in_or_app. right. exact Hin. }
  specialize (K2 eq_refl).
  unfold bind at 1. rewrite manual_list_trace. unfold print, emit.
  exists (Val tt),
    ((((start :: trs) ++ tr1) ++ tr2)
     ++ manual_events (applications (parse_text content)) ++ [Print COMPLETE_MSG]),
    k1, k2.
  split; [norm_trace; reflexivity|].
  split.
  { simpl. rewrite !runs_app, Rs, R1, R2, runs_manual_events. simpl.
    now rewrite app_nil_r. }
  split; [intros _; exact K1|].
  split.
  { simpl. now rewrite !writes_app, Ws, W1, W2, writes_manual_events. }
  split; [intros _ _; now split|].
  split; [discriminate|]. split; [discriminate|].
  apply logged_app; [exact L2|]. apply logged_no_run.
  now rewrite runs_app, runs_manual_events.
Qed.

(** ** Best-effort batches (claim C5) *)

(** C5: restore mode, on a file that is read, the lists [fs] and [cs] being
    what the selection gate returns for the formulae and the casks of the
    file: if no install finds the tool missing or raises anything but a
    non-zero exit, the run returns normally, the commands it spawns are
    exactly the installs of every selected formula, in order, then of every
    selected cask, in order, and each install that exits non-zero is followed
    at once by the line reporting that very item as failed.  A failing item
    thus never keeps the items after it from being attempted. *)
Theorem restore_best_effort (env : Env) (filepath content : string)
  (h h1 h2 : trace) (fs cs : list string) :
  read_file env filepath = FileText content ->
  select_items_with_tkinter env "Select Homebrew Formulae to install"
    (formulae (parse_text content))
    (h ++ [Print ("--- Parsing software list from " +++ filepath +++ " ---")])
  = (Val fs, h1) ->
  select_items_with_tkinter env "Select Homebrew Casks to install"
    (casks (parse_text content)) h1
  = (Val cs, h2) ->
  (forall h0 argv, subprocess_run env h0 argv <> FileNotFoundError) ->
  (forall h0 argv e, subprocess_run env h0 argv <> OtherError e) ->
  exists tr,
    run_restore_mode env filepath h = (Val tt, h ++ tr)
    /\ runs tr
       = map (fun formula => ["brew"; "install"; formula]) fs
         ++ map (fun cask => ["brew"; "install"; "--cask"; cask]) cs
    /\ forall pre argv post e,
         tr = pre ++ Run argv :: post ->
         subprocess_run env (h ++ pre) argv = CalledProcessError e ->
         exists item post',
           ((argv = ["brew"; "install"; item] /\ In item fs)
            \/ (argv = ["brew"; "install"; "--cask"; item] /\ In item cs))
           /\ post
              = Print ("  > Failed to install '" +++ item +++ "': " +++ e
                       +++ ". Continuing...") :: post'.
Proof.
  intros Hread Hsf Hsc Hfound Hcaught.
  destruct (select_stage_selected env _ _ fs cs _ h1 h2 Hsf Hsc)
    as (trs & Es & Rs & Ws).
  destruct (restore_after_selection env filepath content h trs fs cs
              Hread Es Rs Ws)
    as (r & tr & kf & kc & E & Hruns & _ & _ & Hdone & Hret & Hraise & Hlog).
  assert (Hr : r = Val tt).
  { destruct r as [[]| |e]; [reflexivity | now elim Hret |].
    destruct (Hraise e eq_refl) as (h0 & a & H). now elim (Hcaught _ _ _ H). }
  subst r. exists tr. split; [exact E|].
  destruct (Hdone eq_refl (or_intror Hfound)) as [-> ->].
  rewrite !firstn_all in Hruns. split; [exact Hruns | exact Hlog].
Qed.

Lemma restore_best_effort_witness :
  (read_file env_abc "inventory.txt"
   = FileText ("### Homebrew Formulae ###" +++ nl +++ "a" +++ nl +++ "b" +++ nl
               +++ "c" +++ nl)
   /\ (forall h0 argv, subprocess_run env_abc h0 argv <> FileNotFoundError)
   /\ (forall h0 argv e, subprocess_run env_abc h0 argv <> OtherError e))
  /\ exists tr,
       run_restore_mode env_abc "inventory.txt" [] = (Val tt, [] ++ tr)
       /\ runs tr
          = map (fun formula => ["brew"; "install"; formula]) ["a"; "b"; "c"]
            ++ map (fun cask => ["brew"; "install"; "--cask"; cask]) []
       /\ forall pre argv post e,
            tr = pre ++ Run argv :: post ->
            subprocess_run env_abc ([] ++ pre) argv = CalledProcessError e ->
            exists item post',
              ((argv = ["brew"; "install"; item] /\ In item ["a"; "b"; "c"])
               \/ (argv = ["brew"; "install"; "--cask"; item] /\ In item []))
              /\ post
                 = Print ("  > Failed to install '" +++ item +++ "': " +++ e
                          +++ ". Continuing...") :: post'.
Proof.
  assert (Hfound : forall (h0 : trace) argv,
             subprocess_run env_abc h0 argv <> FileNotFoundError).
  { intros h0 a. simpl. destruct (argv_eqb a (formula_argv "b")); discriminate. }
  assert (Hcaught : forall (h0 : trace) argv e,
             subprocess_run env_abc h0 argv <> OtherError e).
  { intros h0 a e. simpl. destruct (argv_eqb a (formula_argv "b")); discriminate. }
  split; [repeat split; assumption|].
  exact (restore_best_effort env_abc "inventory.txt" _ [] _ _
           ["a"; "b"; "c"] [] eq_refl eq_refl eq_refl Hfound Hcaught).
Defined.

(** The batch of the specification run by restore mode: "b" fails and is
    reported, "c" is installed after it. *)
Example restore_a_b_c :
  run_restore_mode env_abc "inventory.txt" []
  = (Val tt,
     [Print "--- Parsing software list from inventory.txt ---";
      Print NOTE_MSG;
      Print (nl +++ "--- Installing Homebrew Formulae ---");
      Print "Installing brew formula 'a'..."; Run ["brew"; "install"; "a"];
      Print "Installing brew formula 'b'..."; Run ["brew"; "install"; "b"];
      Print ("  > Failed to install 'b': " +++ STATUS_1 +++ ". Continuing...");
      Print "Installing brew formula 'c'..."; Run ["brew"; "install"; "c"];
      Print COMPLETE_MSG]).
Proof. reflexivity. Qed.

(** ** The commands of restore mode, from the selection on *)

(** Restore mode on a file that is read, [fs] and [cs] being what the
    selection gate returns for the formulae and the casks of the file.  The
    selected lists are the parsed ones with some names left out.  The
    commands spawned are the installs of the first [kf] selected formulae
    followed by those of the first [kc] selected casks, each in order: a cask
    is installed only after every selected formula was attempted, and
    nothing is installed that was not selected.  No file is written.  A run
    that returns without the brew-missing message has attempted every
    selected formula and cask. *)
Theorem restore_installs_only_selected (env : Env)
  (filepath content : string) (h h1 h2 h' : trace) (fs cs : list string)
  (r : res unit) :
  read_file env filepath = FileText content ->
  select_items_with_tkinter env "Select Homebrew Formulae to install"
    (formulae (parse_text content))
    (h ++ [Print ("--- Parsing software list from " +++ filepath +++ " ---")])
  = (Val fs, h1) ->
  select_items_with_tkinter env "Select Homebrew Casks to install"
    (casks (parse_text content)) h1
  = (Val cs, h2) ->
  run_restore_mode env filepath h = (r, h') ->
  subseq fs (formulae (parse_text content))
  /\ subseq cs (casks (parse_text content))
  /\ exists tr kf kc,
       h' = h ++ tr
       /\ runs tr
          = map (fun formula => ["brew"; "install"; formula]) (firstn kf fs)
            ++ map (fun cask => ["brew"; "install"; "--cask"; cask])
                 (firstn kc cs)
       /\ (0 < kc -> kf = length fs)
       /\ writes tr = []
       /\ (r = Val tt ->
           ~ In (Print "  > ERROR: 'brew' command not found. Please install Homebrew first.")
                tr ->
           kf = length fs /\ kc = length cs).
Proof.
  intros Hread Hsf Hsc Hrun.
  split; [|split].
  - destruct (select_items_shape env "Select Homebrew Formulae to install"
                (formulae (parse_text content))
                (h ++ [Print ("--- Parsing software list from " +++ filepath
                              +++ " ---")]))
      as (r1 & tr1 & E1 & _ & _ & _ & Hres).
    rewrite Hsf in E1. injection E1 as <- _. exact (proj1 Hres).
  - destruct (select_items_shape env "Select Homebrew Casks to install"
                (casks (parse_text content)) h1)
      as (r2 & tr2 & E2 & _ & _ & _ & Hres).
    rewrite Hsc in E2. injection E2 as <- _. exact (proj1 Hres).
  - destruct (select_stage_selected env _ _ fs cs _ h1 h2 Hsf Hsc)
      as (trs & Es & Rs & Ws).
    destruct (restore_after_selection env filepath content h trs fs cs
                Hread Es Rs Ws)
      as (r0 & tr & kf & kc & E & Hruns & Hord & Hw & Hdone & _).
    rewrite E in Hrun. injection Hrun as <- <-.
    exists tr, kf, kc. repeat split; try assumption.
    + now apply (Hdone H (or_introl H0)).
    + now apply (Hdone H (or_introl H0)).
Qed.

Lemma restore_installs_only_selected_witness :
  read_file env_tk "inventory.txt" = FileText (write_report report_sample)
  /\ select_items_with_tkinter env_tk "Select Homebrew Formulae to install"
       (formulae (parse_text (write_report report_sample)))
       [Print "--- Parsing software list from inventory.txt ---"]
     = (Val ["git"],
        [Print "--- Parsing software list from inventory.txt ---";
         Dialog "Select Homebrew Formulae to install" ["git"; "wget"]])
  /\ subseq ["git"] (formulae (parse_text (write_report report_sample)))
  /\ subseq ["firefox"] (casks (parse_text (write_report report_sample)))
  /\ exists tr kf kc,
       snd (run_restore_mode env_tk "inventory.txt" []) = [] ++ tr
       /\ runs tr
          = map (fun formula => ["brew"; "install"; formula]) (firstn kf ["git"])
            ++ map (fun cask => ["brew"; "install"; "--cask"; cask])
                 (firstn kc ["firefox"])
       /\ (0 < kc -> kf = length ["git"])
       /\ writes tr = []
       /\ (fst (run_restore_mode env_tk "inventory.txt" []) = Val tt ->
           ~ In (Print "  > ERROR: 'brew' command not found. Please install Homebrew first.")
                tr ->
           kf = length ["git"] /\ kc = length ["firefox"]).
Proof.
  split; [reflexivity|]. split; [reflexivity|].
  exact (restore_installs_only_selected env_tk "inventory.txt"
           (write_report report_sample) [] _ _
           (snd (run_restore_mode env_tk "inventory.txt" []))
           ["git"] ["firefox"]
           (fst (run_restore_mode env_tk "inventory.txt" []))
           eq_refl eq_refl eq_refl (surjective_pairing _)).
Defined.

(** ** What index mode writes and spawns *)

(** A run of index mode that returns normally. *)
Lemma index_success_shape (env : Env) (h h' : trace) :
  run_index_mode env h = (Val tt, h') ->
  exists fs cs,
    get_brew_packages env h = (Val fs, h ++ [Run ["brew"; "list"; "--formula"]])
    /\ get_brew_casks env (h ++ [Run ["brew"; "list"; "--formula"]])
       = (Val cs,
          (h ++ [Run ["brew"; "list"; "--formula"]])
          ++ [Run ["brew"; "list"; "--cask"]])
    /\ h' = h ++ [Run ["brew"; "list"; "--formula"];
                  Run ["brew"; "list"; "--cask"];
                  WriteFile (report_filename env)
                    (write_report (mkReport (get_installed_apps env) fs cs));
                  Print ("Report saved to: " +++ report_filename env)].
Proof.
  unfold run_index_mode, def_, get_brew_packages, get_brew_casks, brew_list,
    bind, run, ret, raise, write_file, print, emit.
  destruct (subprocess_run env h ["brew"; "list"; "--formula"]);
    destruct (subprocess_run env (h ++ [Run ["brew"; "list"; "--formula"]])
                ["brew"; "list"; "--cask"]);
    destruct (write_error env (report_filename env));
    intros H; try discriminate H; injection H as <-;
    eexists _, _; (split; [reflexivity|]); (split; [reflexivity|]);
    norm_trace; reflexivity.
Qed.

Lemma brew_list_body (env : Env) (flag sentinel : string) (h : trace)
  (names : list string) (h1 : trace) :
  brew_list env flag h = (Val names, h1) ->
  (forall stdout,
      subprocess_run env h ["brew"; "list"; flag] = Completed stdout ->
      names <> [] /\ write_body names sentinel = strip stdout +++ nl)
  /\ (listing_failed (subprocess_run env h ["brew"; "list"; flag]) ->
      names = [] /\ write_body names sentinel = sentinel +++ nl).
Proof.
  unfold brew_list, bind, run, ret, raise.
  destruct (subprocess_run env h ["brew"; "list"; flag]) as [out|e| |e] eqn:E;
    intros H; try discriminate H; injection H as <- <-.
  - split.
    + intros stdout [= <-]. split.
      * intros En. pose proof (split_nl_truthy (strip out)) as T.
        rewrite En in T. discriminate.
      * unfold write_body. rewrite split_nl_truthy. unfold split_nl.
        now rewrite write_items_split_from.
    + intros [H | [e H]]; discriminate H.
  - split; [intros stdout H; discriminate H | intros _; split; reflexivity].
  - split; [intros stdout H; discriminate H | intros _; split; reflexivity].
Qed.

(** In every report that index mode writes, the section of a category
    (formulae, casks) is the trimmed output of its listing followed by one
    line feed when the listing succeeded, and then the collector did not
    return the empty list; it is the sentinel line when the listing failed
    (tool missing or non-zero exit), and only then did the collector return
    the empty list. *)
Theorem index_report_copies_listing (env : Env) (h h' : trace) :
  run_index_mode env h = (Val tt, h') ->
  exists fs cs body_f body_c,
    get_brew_packages env h = (Val fs, h ++ [Run ["brew"; "list"; "--formula"]])
    /\ get_brew_casks env (h ++ [Run ["brew"; "list"; "--formula"]])
       = (Val cs,
          (h ++ [Run ["brew"; "list"; "--formula"]])
          ++ [Run ["brew"; "list"; "--cask"]])
    /\ h' = h ++ [Run ["brew"; "list"; "--formula"];
                  Run ["brew"; "list"; "--cask"];
                  WriteFile (report_filename env)
                    ("### macOS Installed Applications ###" +++ nl
                     +++ write_body (get_installed_apps env) APPS_SENTINEL
                     +++ nl +++ "### Homebrew Formulae ###" +++ nl +++ body_f
                     +++ nl +++ "### Homebrew Casks ###" +++ nl +++ body_c);
                  Print ("Report saved to: " +++ report_filename env)]
    /\ (forall stdout,
          subprocess_run env h ["brew"; "list"; "--formula"] = Completed stdout ->
          fs <> [] /\ body_f = strip stdout +++ nl)
    /\ (listing_failed (subprocess_run env h ["brew"; "list"; "--formula"]) ->
        fs = []
        /\ body_f = "Homebrew not found or no formulae installed." +++ nl)
    /\ (forall stdout,
          subprocess_run env (h ++ [Run ["brew"; "list"; "--formula"]])
            ["brew"; "list"; "--cask"] = Completed stdout ->
          cs <> [] /\ body_c = strip stdout +++ nl)
    /\ (listing_failed
          (subprocess_run env (h ++ [Run ["brew"; "list"; "--formula"]])
             ["brew"; "list"; "--cask"]) ->
        cs = []
        /\ body_c = "Homebrew not found or no casks installed." +++ nl).
Proof.
  intros Hrun.
  destruct (index_success_shape env h h' Hrun) as (fs & cs & Ef & Ec & ->).
  exists fs, cs, (write_body fs FORMULAE_SENTINEL),
    (write_body cs CASKS_SENTINEL).
  split; [exact Ef|]. split; [exact Ec|]. split.
  { unfold write_report. cbn [applications formulae casks].
    repeat rewrite append_assoc. reflexivity. }
  destruct (brew_list_body env "--formula" FORMULAE_SENTINEL h fs _ Ef)
    as [Hf1 Hf2].
  destruct (brew_list_body env "--cask" CASKS_SENTINEL _ cs _ Ec)
    as [Hc1 Hc2].
  split; [exact Hf1|]. split; [exact Hf2|]. split; [exact Hc1 | exact Hc2].
Qed.

Lemma index_report_copies_listing_witness :
  exists fs cs body_f body_c,
    get_brew_packages env_brew_lists []
    = (Val fs, [] ++ [Run ["brew"; "list"; "--formula"]])
    /\ get_brew_casks env_brew_lists ([] ++ [Run ["brew"; "list"; "--formula"]])
       = (Val cs,
          ([] ++ [Run ["brew"; "list"; "--formula"]])
          ++ [Run ["brew"; "list"; "--cask"]])
    /\ snd (run_index_mode env_brew_lists [])
       = [] ++ [Run ["brew"; "list"; "--formula"];
                Run ["brew"; "list"; "--cask"];
                WriteFile (report_filename env_brew_lists)
                  ("### macOS Installed Applications ###" +++ nl
                   +++ write_body (get_installed_apps env_brew_lists)
                         APPS_SENTINEL
                   +++ nl +++ "### Homebrew Formulae ###" +++ nl +++ body_f
                   +++ nl +++ "### Homebrew Casks ###" +++ nl +++ body_c);
                Print ("Report saved to: " +++ report_filename env_brew_lists)]
    /\ (forall stdout,
          subprocess_run env_brew_lists [] ["brew"; "list"; "--formula"]
          = Completed stdout ->
          fs <> [] /\ body_f = strip stdout +++ nl)
    /\ (listing_failed
          (subprocess_run env_brew_lists [] ["brew"; "list"; "--formula"]) ->
        fs = []
        /\ body_f = "Homebrew not found or no formulae installed." +++ nl)
    /\ (forall stdout,
          subprocess_run env_brew_lists ([] ++ [Run ["brew"; "list"; "--formula"]])
            ["brew"; "list"; "--cask"] = Completed stdout ->
          cs <> [] /\ body_c = strip stdout +++ nl)
    /\ (listing_failed
          (subprocess_run env_brew_lists
             ([] ++ [Run ["brew"; "list"; "--formula"]])
             ["brew"; "list"; "--cask"]) ->
        cs = []
        /\ body_c = "Homebrew not found or no casks installed." +++ nl).
Proof.
  exact (index_report_copies_listing env_brew_lists []
           (snd (run_index_mode env_brew_lists [])) eq_refl).
Defined.

(** Index mode spawns only listings, the formula listing and then the cask
    listing, never an install; it opens no window and writes at most one
    file; it prints nothing unless it returns normally, and then its trace
    is exactly the two listings, the write of the report and the line
    announcing it, in that order. *)
Theorem index_mode_only_lists (env : Env) (h h' : trace) (r : res unit) :
  run_index_mode env h = (r, h') ->
  exists tr,
    h' = h ++ tr
    /\ (exists k,
          runs tr
          = firstn k [["brew"; "list"; "--formula"]; ["brew"; "list"; "--cask"]])
    /\ dialogs tr = []
    /\ length (writes tr) <= 1
    /\ (forall line, In (Print line) tr -> r = Val tt)
    /\ (r = Val tt ->
        exists content,
          tr = [Run ["brew"; "list"; "--formula"];
                Run ["brew"; "list"; "--cask"];
                WriteFile (report_filename env) content;
                Print ("Report saved to: " +++ report_filename env)]).
Proof.
  intros Hrun.
  destruct (index_shape env h) as (r0 & tr & E & Hruns & Hd & Hr).
  rewrite E in Hrun. injection Hrun as <- <-.
  exists tr. split; [reflexivity|]. split.
  { destruct Hruns as [-> | ->]; [now exists 1 | now exists 2]. }
  split; [exact Hd|].
  destruct r0 as [[]| |e]; [| contradiction |].
  - destruct Hr as (content & Hw & _).
    split; [rewrite Hw; simpl; lia|]. split; [reflexivity|].
    intros _. destruct (index_success_shape env h _ E) as (fs & cs & _ & _ & E').
    apply app_inv_head in E'. subst tr. eauto.
  - destruct Hr as (Hw & Hnp & _).
    split; [rewrite Hw; simpl; lia|]. split.
    + intros line Hin. now elim (Hnp _ Hin).
    + discriminate.
Qed.

Lemma index_mode_only_lists_witness :
  exists tr,
    snd (run_index_mode env_brew_lists []) = [] ++ tr
    /\ (exists k,
          runs tr
          = firstn k [["brew"; "list"; "--formula"]; ["brew"; "list"; "--cask"]])
    /\ dialogs tr = []
    /\ length (writes tr) <= 1
    /\ (forall line, In (Print line) tr ->
          fst (run_index_mode env_brew_lists []) = Val tt)
    /\ (fst (run_index_mode env_brew_lists []) = Val tt ->
        exists content,
          tr = [Run ["brew"; "list"; "--formula"];
                Run ["brew"; "list"; "--cask"];
                WriteFile (report_filename env_brew_lists) content;
                Print ("Report saved to: " +++ report_filename env_brew_lists)]).
Proof.
  exact (index_mode_only_lists env_brew_lists []
           (snd (run_index_mode env_brew_lists []))
           (fst (run_index_mode env_brew_lists []))
           (surjective_pairing _)).
Defined.
